(** * Football-Data_Engineering: the Wikipedia stadium pipeline

    A shallow embedding of
    - [src/pipelines/wikipedia_pipeline.py] (module [Pipeline]) and
    - [src/findtable.py] (module [FindTable]),
    with the parts of Python, BeautifulSoup and pandas they rely on,
    followed by the properties of the specification that concern them. *)

From Stdlib Require Import ZArith NArith Lia List Bool String Ascii Sorted.
From stdpp Require Import base tactics option list gmap strings pretty.

Open Scope Z_scope.

(* ===================================================================== *)
(** * Python values: exceptions and text *)
(* ===================================================================== *)

(** The exception classes that the modelled code can raise. *)
Inductive exn :=
| IndexError
| AttributeError
| ValueError
| KeyError
| TypeError
| OverflowError.

(** A Python computation either returns or raises. *)
Inductive result (A : Type) :=
| Ok (a : A)
| Raise (e : exn).
Arguments Ok {A} a.
Arguments Raise {A} e.

Definition rbind {A B} (m : result A) (k : A → result B) : result B :=
  match m with
  | Ok a => k a
  | Raise e => Raise e
  end.

Notation "x ←ᵣ m ; k" := (rbind m (λ x, k))
  (at level 20, m at level 100, k at level 200, right associativity,
   format "x  ←ᵣ  m ;  '/' k").

Definition is_Ok {A} (m : result A) : Prop := ∃ a, m = Ok a.

(** A Python [str] is a sequence of Unicode code points. *)
Abbreviation char := N (only parsing).
Abbreviation str := (list N) (only parsing).

(** ASCII literals of the source, as code points. *)
Definition py (s : string) : str :=
  (λ a, N_of_ascii a) <$> list_ascii_of_string s.

(** [l[i]] for a non-negative literal index. *)
Definition getitem {A} (l : list A) (i : nat) : result A :=
  match l !! i with
  | Some a => Ok a
  | None => Raise IndexError
  end.

(** ** [str] methods *)

(** [s.startswith(p)]. *)
Fixpoint startswith (p s : str) : bool :=
  match p, s with
  | [], _ => true
  | _ :: _, [] => false
  | a :: p', b :: s' => (a =? b)%N && startswith p' s'
  end.

(** Position of the first occurrence of [sub] in [s], if any. *)
Fixpoint index_of (sub s : str) : option nat :=
  if startswith sub s then Some 0%nat
  else match s with
       | [] => None
       | _ :: s' => S <$> index_of sub s'
       end.

(** [s.find(sub)]: the lowest index, or [-1]. *)
Definition str_find (s sub : str) : Z :=
  match index_of sub s with
  | Some i => Z.of_nat i
  | None => -1
  end.

(** The pieces of [s] between the occurrences of a non-empty [sep],
    scanning from the left; [skip] counts the characters of a matched
    separator that are still to be dropped. *)
Fixpoint split_go (sep : str) (skip : nat) (s : str) : list str :=
  match s with
  | [] => [[]]
  | c :: s' =>
      match skip with
      | S k => split_go sep k s'
      | O =>
          if startswith sep s then [] :: split_go sep (length sep - 1) s'
          else match split_go sep 0 s' with
               | piece :: pieces => (c :: piece) :: pieces
               | [] => [[c]]
               end
      end
  end.

(** [s.split(sep)]; an empty separator raises [ValueError]. *)
Definition str_split (s sep : str) : result (list str) :=
  match sep with
  | [] => Raise ValueError
  | _ => Ok (split_go sep 0 s)
  end.

Fixpoint replace_go (old new : str) (skip : nat) (s : str) : str :=
  match s with
  | [] => []
  | c :: s' =>
      match skip with
      | S k => replace_go old new k s'
      | O =>
          if startswith old s then new ++ replace_go old new (length old - 1) s'
          else c :: replace_go old new 0 s'
      end
  end.

(** [s.replace(old, new)]: every non-overlapping occurrence, from the left,
    in one pass.  With an empty [old], [new] is put around every character. *)
Definition str_replace (s old new : str) : str :=
  match old with
  | [] => new ++ flat_map (λ c, c :: new) s
  | _ => replace_go old new 0 s
  end.

(** [c.isspace()] for one code point: the Unicode white space characters. *)
Definition isspace (c : char) : bool :=
  ((9 <=? c) && (c <=? 13) || (28 <=? c) && (c <=? 32)
   || (c =? 133) || (c =? 160) || (c =? 5760)
   || (8192 <=? c) && (c <=? 8202)
   || (c =? 8232) || (c =? 8233) || (c =? 8239) || (c =? 8287)
   || (c =? 12288))%N.

Fixpoint lstrip (s : str) : str :=
  match s with
  | [] => []
  | c :: s' => if isspace c then lstrip s' else s
  end.

Definition rstrip (s : str) : str := rev (lstrip (rev s)).

(** [s.strip()]. *)
Definition str_strip (s : str) : str := rstrip (lstrip s).

(** [sub in s]. *)
Definition contains (sub s : str) : bool :=
  match index_of sub s with Some _ => true | None => false end.

(** The literals of the source. *)
Definition NBSP : str := Eval cbv in py "&nbsp".
Definition DIAMOND : str := [32; 9830]%N.      (* ' ♦', U+2666 *)
Definition LBRACKET : str := Eval cbv in py "[".
Definition FORMERLY : str := Eval cbv in py " (formerly)".
Definition NEWLINE : str := [10]%N.
Definition COMMA : str := Eval cbv in py ",".
Definition PERIOD : str := Eval cbv in py ".".
Definition SLASHES : str := Eval cbv in py "//".
Definition HTTPS : str := Eval cbv in py "https://".
Definition NO_IMAGE : str := Eval cbv in
  py "https://upload.wikimedia.org/wikipedia/commons/thumb/0/0a/No-image-available.png/480px-No-image-available.png".

Definition CLASS : str := Eval cbv in py "class".
Definition SRC : str := Eval cbv in py "src".
Definition TABLE : str := Eval cbv in py "table".
Definition TR : str := Eval cbv in py "tr".
Definition TD : str := Eval cbv in py "td".
Definition IMG : str := Eval cbv in py "img".
Definition WIKITABLE : str := Eval cbv in py "wikitable".
Definition SORTABLE : str := Eval cbv in py "sortable".
Definition JQUERY_TABLESORTER : str := Eval cbv in py "jquery-tablesorter".
Definition STANDARD : str := Eval cbv in py "standard".

(* ===================================================================== *)
(** * BeautifulSoup: the parsed document *)
(* ===================================================================== *)

(** The value of an attribute: a string, or for a multi-valued attribute
    such as [class] the list of its tokens. *)
Inductive attr :=
| AttrStr (v : str)
| AttrList (vs : list str).

(** A node of the parse tree.  The [BeautifulSoup] object is itself a tag,
    whose contents are the top-level nodes of the document. *)
Inductive node :=
| NavigableString (s : str)
| Tag (name : str) (attrs : gmap (list N) attr) (contents : list node).

(** All nodes below [n], in document order. *)
Fixpoint descendants (n : node) : list node :=
  match n with
  | NavigableString _ => []
  | Tag _ _ contents =>
      (fix go (cs : list node) : list node :=
         match cs with
         | [] => []
         | c :: cs' => c :: descendants c ++ go cs'
         end) contents
  end.

Definition tag_named (name : str) (n : node) : bool :=
  match n with
  | Tag name' _ _ => bool_decide (name' = name)
  | NavigableString _ => false
  end.

(** The filter [{"class": wanted}] with a list: some class token of the
    tag is one of [wanted]. *)
Definition class_among (wanted : list str) (n : node) : bool :=
  match n with
  | Tag _ attrs _ =>
      match attrs !! CLASS with
      | Some (AttrList vs) => existsb (λ v, bool_decide (v ∈ wanted)) vs
      | Some (AttrStr v) => bool_decide (v ∈ wanted)
      | None => false
      end
  | NavigableString _ => false
  end.

(** [n.find_all(name)]. *)
Definition find_all (name : str) (n : node) : list node :=
  filter (λ d, tag_named name d) (descendants n).

(** [n.find_all(name, {"class": wanted})]. *)
Definition find_all_class (name : str) (wanted : list str) (n : node) : list node :=
  filter (λ d, tag_named name d && class_among wanted d) (descendants n).

(** [n.find(name)]: the first match or [None]. *)
Definition find (name : str) (n : node) : option node :=
  head (find_all name n).

(** [n.get(key)]. *)
Definition get (key : str) (n : node) : option attr :=
  match n with
  | Tag _ attrs _ => attrs !! key
  | NavigableString _ => None
  end.

Definition own_text (n : node) : str :=
  match n with
  | NavigableString s => s
  | Tag _ _ _ => []
  end.

(** [n.text]: the strings below [n], concatenated. *)
Definition text (n : node) : str :=
  match n with
  | NavigableString s => s
  | Tag _ _ _ => concat (own_text <$> descendants n)
  end.

(** Builders for example documents. *)
Definition elem (name : str) (contents : list node) : node := Tag name ∅ contents.
Definition elem_class (name : str) (classes : list str) (contents : list node) : node :=
  Tag name {[ CLASS := AttrList classes ]} contents.
Definition cell (s : string) : node := elem TD [NavigableString (py s)].
Definition soup (contents : list node) : node := Tag (py "[document]") ∅ contents.

(** ** Records and loops *)

(** The values stored in the [values] dict of a row. *)
Inductive value :=
| VInt (z : Z)
| VStr (s : str).

#[global] Instance value_eq_dec : EqDecision value.
Proof. solve_decision. Defined.

(** [range(a, b)]. *)
Definition range (a b : nat) : list nat := seq a (b - a).

(** [for x in xs: body], threading the state the body updates. *)
Fixpoint for_each {A S} (xs : list A) (body : A → S → result S) (s : S) : result S :=
  match xs with
  | [] => Ok s
  | x :: xs' => s' ←ᵣ body x s; for_each xs' body s'
  end.

(** [f] on every element, in order, up to the first that raises. *)
Fixpoint result_map {A B} (f : A → result B) (xs : list A) : result (list B) :=
  match xs with
  | [] => Ok []
  | x :: xs' => b ←ᵣ f x; bs ←ᵣ result_map f xs'; Ok (b :: bs)
  end.

(* ===================================================================== *)
(** * [wikipedia_pipeline.py] *)
(* ===================================================================== *)

Module Pipeline.

(** [clean_text], lines 55-75.  The argument is the [.text] of a cell, a
    [str], on which [str(text)] is the identity.  The first test is
    [if text.find(' ♦'):], the truth value of the integer itself. *)
Definition clean_text (text : str) : result str :=
  let text := str_strip text in
  let text := str_replace text NBSP [] in
  text ←ᵣ (if bool_decide (str_find text DIAMOND ≠ 0)
           then pieces ←ᵣ str_split text DIAMOND; getitem pieces 0
           else Ok text);
  text ←ᵣ (if bool_decide (str_find text LBRACKET ≠ -1)
           then pieces ←ᵣ str_split text LBRACKET; getitem pieces 0
           else Ok text);
  text ←ᵣ (if bool_decide (str_find text FORMERLY ≠ -1)
           then pieces ←ᵣ str_split text FORMERLY; getitem pieces 0
           else Ok text);
  Ok (str_replace text NEWLINE []).

(** [clean_text(tds[k].text)]. *)
Definition clean_cell (tds : list node) (k : nat) : result str :=
  td ←ᵣ getitem tds k; clean_text (text td).

(** [clean_text(tds[k].text) if len(tds) > k else '']. *)
Definition clean_cell_or_empty (tds : list node) (k : nat) : result str :=
  if bool_decide (k < length tds)%nat then clean_cell tds k else Ok [].

(** Line 112:
    ['https://' + tds[5].find('img').get('src').split("//")[1]
       if tds[5].find('img') else NO_IMAGE].
    The condition is evaluated first; a tag is always true. *)
Definition image_url (tds : list node) : result str :=
  td ←ᵣ getitem tds 5;
  match find IMG td with
  | Some img =>
      match get SRC img with
      | Some (AttrStr src) =>
          pieces ←ᵣ str_split src SLASHES;
          rest ←ᵣ getitem pieces 1;
          Ok (HTTPS ++ rest)
      | Some (AttrList _) | None => Raise AttributeError
      end
  | None => Ok NO_IMAGE
  end.

(** The body of the loop of [extract_wikipedia_data], lines 101-117, for
    the row index [i]; [print] is not modelled. *)
Definition extract_row (rows : list node) (i : nat)
    (data : list (gmap string value)) : result (list (gmap string value)) :=
  row ←ᵣ getitem rows i;
  let tds := find_all TD row in
  let values : gmap string value := ∅ in
  values ←ᵣ
    (if bool_decide (3 ≤ length tds)%nat then
       let values := <["rank" := VInt (Z.of_nat i)]> values in
       stadium ←ᵣ clean_cell tds 0;
       let values := <["stadium" := VStr stadium]> values in
       capacity ←ᵣ clean_cell tds 1;
       let values :=
         <["capacity" := VStr (str_replace (str_replace capacity COMMA []) PERIOD [])]> values in
       region ←ᵣ clean_cell_or_empty tds 2;
       let values := <["region" := VStr region]> values in
       country ←ᵣ clean_cell_or_empty tds 3;
       let values := <["country" := VStr country]> values in
       city ←ᵣ clean_cell_or_empty tds 4;
       let values := <["city" := VStr city]> values in
       images ←ᵣ image_url tds;
       let values := <["images" := VStr images]> values in
       home_team ←ᵣ clean_cell_or_empty tds 6;
       let values := <["home_team" := VStr home_team]> values in
       Ok values
     else Ok values);
  Ok (data ++ [values]).

(** The class filter of line 91. *)
Definition TABLE_CLASSES : list str := [WIKITABLE; SORTABLE; JQUERY_TABLESORTER].

(** [extract_wikipedia_data] from line 91 on, for the parsed document;
    [None] is the result when no table is found.  The list is the
    argument of [pd.DataFrame]. *)
Definition extract_wikipedia_data_soup (soup : node) : result (option (list (gmap string value))) :=
  let tables := find_all_class TABLE TABLE_CLASSES soup in
  match tables with
  | table :: _ =>
      let rows := find_all TR table in
      data ←ᵣ for_each (range 1 (length rows)) (extract_row rows) [];
      Ok (Some data)
  | [] => Ok None
  end.

(** [get_wikipedia_data], lines 33-51, for the parsed document: the rows
    of the first table. *)
Definition get_wikipedia_data_soup (soup : node) : option (list node) :=
  match find_all_class TABLE TABLE_CLASSES soup with
  | table :: _ => Some (find_all TR table)
  | [] => None
  end.

(** ** Collaborators and the data frame *)

Section Transform.

(** A coordinate is the pair [(latitude, longitude)] of floats; the code
    only compares coordinates for equality. *)
Context {coord : Type} `{!EqDecision coord}.

(** [str()] of a coordinate pair. *)
Variable repr_coord : coord → str.

(** Nominatim: the answer to a query, given the queries made before it. *)
Variable geocode : list str → str → option coord.

(** [int(s)] for a string: [None] when Python raises [ValueError]. *)
Variable int_of_str : str → option Z.

(** [BeautifulSoup(html, 'html.parser')]. *)
Variable BeautifulSoup : str → node.

(** [requests.get(url, timeout=10)] followed by [raise_for_status()]: the
    body of the response, or [None] for a [RequestException]. *)
Variable requests_get : str → option str.

(** The content of a cell of a data frame. *)
Inductive cell :=
| Val (v : value)
| NaN
| PyNone
| Tuple (c : coord).

#[local] Instance cell_eq_dec : EqDecision cell.
Proof. solve_decision. Defined.

(** A [pd.DataFrame] with the default index [0..n-1]: its columns, and per
    row the cells that are not [NaN] fillers. *)
Record frame := Frame {
  columns : gset string;
  rows : list (gmap string cell);
}.

(** [pd.DataFrame(data)] for a list of dicts: the columns are the keys
    that occur; a key missing in a row reads as [NaN]. *)
Definition DataFrame (data : list (gmap string value)) : frame :=
  {| columns := ⋃ (dom <$> data);
     rows := (λ d : gmap string value, Val <$> d) <$> data |}.

(** [x[col]] for a row [x] of the frame [df]. *)
Definition row_get (df : frame) (x : gmap string cell) (col : string) : result cell :=
  if bool_decide (col ∈ columns df) then Ok (default NaN (x !! col))
  else Raise KeyError.

(** [df[col] = values], one value per row. *)
Definition set_column (df : frame) (col : string) (values : list cell) : frame :=
  {| columns := {[col]} ∪ columns df;
     rows := zip_with (λ x v, <[col := v]> x) (rows df) values |}.

Definition NAN : str := Eval cbv in py "nan".
Definition NONE : str := Eval cbv in py "None".
Definition COMMA_SPACE : str := Eval cbv in py ", ".
Definition NO_IMAGE_NAME : str := Eval cbv in py "NO_IMAGE".

(** [f'{x}'] for the content of a cell. *)
Definition format_cell (x : cell) : str :=
  match x with
  | Val (VStr s) => s
  | Val (VInt z) => py (pretty z)
  | NaN => NAN
  | PyNone => NONE
  | Tuple c => repr_coord c
  end.

(** The state of the world that the pipeline acts on: the queries sent to
    the geocoder, the pages requested, and the files written. *)
Record world := World {
  queries : list str;
  requested : list str;
  files : gmap (list N) frame;
}.

(** A computation that acts on the world and may raise. *)
Definition io (A : Type) : Type := world → result A * world.

Definition io_ret {A} (a : A) : io A := λ w, (Ok a, w).
Definition io_bind {A B} (m : io A) (k : A → io B) : io B := λ w,
  match m w with
  | (Ok a, w') => k a w'
  | (Raise e, w') => (Raise e, w')
  end.
Definition io_lift {A} (r : result A) : io A := λ w, (r, w).

Notation "x ←ᵢ m ; k" := (io_bind m (λ x, k))
  (at level 20, m at level 100, k at level 200, right associativity,
   format "x  ←ᵢ  m ;  '/' k").

(** [for x in xs], collecting the results. *)
Fixpoint io_map {A B} (f : A → io B) (xs : list A) : io (list B) :=
  match xs with
  | [] => io_ret []
  | x :: xs' => b ←ᵢ f x; bs ←ᵢ io_map f xs'; io_ret (b :: bs)
  end.

Definition add_query (query : str) (w : world) : world :=
  {| queries := queries w ++ [query]; requested := requested w; files := files w |}.

Definition add_request (url : str) (w : world) : world :=
  {| queries := queries w; requested := requested w ++ [url]; files := files w |}.

Definition write_file (path : str) (df : frame) (w : world) : world :=
  {| queries := queries w; requested := requested w; files := <[path := df]> (files w) |}.

(** [get_wikipedia_page], lines 10-30. *)
Definition get_wikipedia_page (url : str) : io (option str) := λ w,
  (Ok (requests_get url), add_request url w).

(** The query [f'{city}, {country}'] of line 136. *)
Definition query (country city : cell) : str :=
  format_cell city ++ COMMA_SPACE ++ format_cell country.

(** [get_lat_long], lines 123-141: the coordinate of the location that
    the geocoder answers, or [None]. *)
Definition get_lat_long (country city : cell) : io (option coord) := λ w,
  (Ok (geocode (queries w) (query country city)), add_query (query country city) w).

Definition cell_of_location (l : option coord) : cell :=
  match l with
  | Some c => Tuple c
  | None => PyNone
  end.

(** [lambda x: get_lat_long(x['country'], x['city'])] on a row of [df]. *)
Definition locate (df : frame) (x : gmap string cell) : io cell :=
  country ←ᵢ io_lift (row_get df x "country");
  city ←ᵢ io_lift (row_get df x "city");
  l ←ᵢ get_lat_long country city;
  io_ret (cell_of_location l).

(** [df.apply(lambda x: get_lat_long(x['country'], x['city']), axis=1)]
    on the rows [xs] selected from [df]: one call per row, in order.
    When the selection has no row, or the frame no column, pandas calls
    the function once on a row of [NaN] to infer the kind of the result:
    what the call returns is discarded, and when it raises, [apply]
    returns a copy of the frame, which cannot be assigned to a column. *)
Definition apply_locate (df : frame) (xs : list (gmap string cell)) : io (list cell) :=
  if bool_decide (xs = [] ∨ columns df = ∅) then
    λ w, match locate df ∅ w with
         | (Ok _, w') => (Ok [], w')
         | (Raise _, w') => (Raise ValueError, w')
         end
  else io_map (locate df) xs.

(** [lambda x: x if x not in ['NO_IMAGE', '', None] else NO_IMAGE]. *)
Definition default_image (x : cell) : cell :=
  match x with
  | Val (VStr s) =>
      if bool_decide (s = NO_IMAGE_NAME ∨ s = []) then Val (VStr NO_IMAGE) else x
  | PyNone => Val (VStr NO_IMAGE)
  | _ => x
  end.

(** The conversion of one cell by [astype(int)], to a 64-bit integer. *)
Definition to_int64 (x : cell) : result cell :=
  match x with
  | Val (VStr s) =>
      match int_of_str s with
      | Some z =>
          if bool_decide (- 2 ^ 63 ≤ z < 2 ^ 63) then Ok (Val (VInt z))
          else Raise OverflowError
      | None => Raise ValueError
      end
  | Val (VInt z) =>
      if bool_decide (- 2 ^ 63 ≤ z < 2 ^ 63) then Ok (Val (VInt z))
      else Raise OverflowError
  | NaN => Raise ValueError
  | PyNone | Tuple _ => Raise TypeError
  end.

(** [df[col]]: the column, one cell per row. *)
Definition get_column (df : frame) (col : string) : result (list cell) :=
  if bool_decide (col ∈ columns df) then Ok ((λ x, default NaN (x !! col)) <$> rows df)
  else Raise KeyError.

(** [df.duplicated([col])], with the default [keep='first']: a row is
    flagged when an earlier row holds an equal value; missing values are
    equal to each other. *)
Fixpoint duplicated_from (seen : list cell) (values : list cell) : list bool :=
  match values with
  | [] => []
  | v :: values' =>
      bool_decide (v ∈ seen) :: duplicated_from (v :: seen) values'
  end.

Definition isna (x : cell) : bool :=
  match x with
  | NaN | PyNone => true
  | _ => false
  end.

Definition missing_as_one (x : cell) : cell := if isna x then NaN else x.

Definition duplicated (df : frame) (col : string) : result (list bool) :=
  values ←ᵣ get_column df col;
  Ok (duplicated_from [] (missing_as_one <$> values)).

(** [df[mask]]: the flagged rows, each with its index label. *)
Definition select (df : frame) (mask : list bool) : list (nat * gmap string cell) :=
  filter (λ p, mask !! p.1 = Some true) (imap (λ i x, (i, x)) (rows df)).

(** [df.update(other)] for rows [other] labelled by index: every cell of
    [other] that is not missing overwrites the cell of [df] in the row
    with the same label. *)
Definition update_row (x other : gmap string cell) : gmap string cell :=
  filter (λ kv, isna kv.2 = false) other ∪ x.

Definition update (df : frame) (other : list (nat * gmap string cell)) : frame :=
  let other : gmap nat (gmap string cell) := list_to_map other in
  {| columns := columns df;
     rows := imap (λ i x, match other !! i with
                          | Some o => update_row x o
                          | None => x
                          end) (rows df) |}.

(** Lines 160-163, the pass over the duplicated locations. *)
Definition requery_duplicates (stadiums_df : frame) : io frame :=
  mask ←ᵢ io_lift (duplicated stadiums_df "location");
  let duplicates := select stadiums_df mask in
  locations ←ᵢ apply_locate stadiums_df (duplicates.*2);
  let duplicates :=
    zip_with (λ p l, (p.1, <["location" := l]> p.2)) duplicates locations in
  io_ret (update stadiums_df duplicates).

(** [transform_wikipedia_data], lines 144-165. *)
Definition transform_wikipedia_data (data : frame) : io frame :=
  let stadiums_df := data in
  locations ←ᵢ apply_locate stadiums_df (rows stadiums_df);
  let stadiums_df := set_column stadiums_df "location" locations in
  images ←ᵢ io_lift (get_column stadiums_df "images");
  let stadiums_df := set_column stadiums_df "images" (default_image <$> images) in
  capacity ←ᵢ io_lift (get_column stadiums_df "capacity");
  capacity ←ᵢ io_lift (result_map to_int64 capacity);
  let stadiums_df := set_column stadiums_df "capacity" capacity in
  requery_duplicates stadiums_df.

(** [extract_wikipedia_data], lines 78-119. *)
Definition extract_wikipedia_data (html : str) : result (option frame) :=
  data ←ᵣ extract_wikipedia_data_soup (BeautifulSoup html);
  Ok (DataFrame <$> data).

(** [transformed_data.to_csv(output_file, index=False)]. *)
Definition to_csv (df : frame) (output_file : str) : io unit := λ w,
  (Ok (), write_file output_file df w).

(** The flow [wikipedia_data_pipeline], lines 168-183. *)
Definition wikipedia_data_pipeline (url output_file : str) : io unit :=
  data ←ᵢ io_lift (extract_wikipedia_data url);
  match data with
  | Some data =>
      transformed_data ←ᵢ transform_wikipedia_data data;
      to_csv transformed_data output_file
  | None => io_ret ()
  end.

End Transform.

Arguments cell coord : clear implicits.
Arguments frame coord : clear implicits.
Arguments world coord : clear implicits.
Arguments io coord A : clear implicits.

End Pipeline.

(* ===================================================================== *)
(** * [findtable.py] *)
(* ===================================================================== *)

Module FindTable.

(** [clean_text], lines 5-9. *)
Definition clean_text (text : str) : str :=
  str_replace (str_strip text) NEWLINE [].

Definition clean_cell (tds : list node) (k : nat) : result str :=
  td ←ᵣ getitem tds k; Ok (clean_text (text td)).

(** The body of the loop of [get_wikipedia_data], lines 40-53. *)
Definition extract_row (rows : list node) (i : nat)
    (data : list (gmap string value)) : result (list (gmap string value)) :=
  row ←ᵣ getitem rows i;
  let tds := find_all TD row in
  let values : gmap string value := ∅ in
  values ←ᵣ
    (if bool_decide (3 ≤ length tds)%nat then
       let values := <["rank" := VInt (Z.of_nat i)]> values in
       stadium ←ᵣ clean_cell tds 0;
       let values := <["stadium" := VStr stadium]> values in
       capacity ←ᵣ clean_cell tds 1;
       let values :=
         <["capacity" := VStr (str_replace (str_replace capacity COMMA []) PERIOD [])]> values in
       region ←ᵣ (if bool_decide (2 < length tds)%nat then clean_cell tds 2 else Ok []);
       let values := <["region" := VStr region]> values in
       Ok values
     else Ok values);
  Ok (data ++ [values]).

(** The class filters of lines 29 and 31. *)
Definition TABLE_CLASSES : list str := [WIKITABLE; SORTABLE; JQUERY_TABLESORTER].
Definition ALTERNATIVE_CLASSES : list str := [WIKITABLE; STANDARD].

(** Lines 29-36: the table that the rows are read from. *)
Definition locate_table (soup : node) : option node :=
  let tables := find_all_class TABLE TABLE_CLASSES soup in
  let tables :=
    match tables with
    | [] => find_all_class TABLE ALTERNATIVE_CLASSES soup
    | _ => tables
    end in
  head tables.

(** [get_wikipedia_data] from line 29 on, for the parsed document. *)
Definition get_wikipedia_data_soup (soup : node) : result (option (list (gmap string value))) :=
  match locate_table soup with
  | Some table =>
      let rows := find_all TR table in
      data ←ᵣ for_each (range 1 (length rows)) (extract_row rows) [];
      Ok (Some data)
  | None => Ok None
  end.

Section Fetch.

(** [requests.get(url).content], and [BeautifulSoup(html, 'html.parser')]. *)
Variable requests_get : str → result str.
Variable BeautifulSoup : str → node.

(** [get_wikipedia_data], lines 11-55. *)
Definition get_wikipedia_data (url : str) : result (option (list (gmap string value))) :=
  html ←ᵣ requests_get url;
  get_wikipedia_data_soup (BeautifulSoup html).

End Fetch.

End FindTable.

(* ===================================================================== *)
(** * Notions of the statements *)
(* ===================================================================== *)

(** ** Truncation points *)

(** Where [clean_text] cuts a text [t]: at the first occurrence of a
    marker, or at the end of [t]. *)
Definition cut_at (sep t : str) : nat := default (length t) (index_of sep t).

(** The earliest of the truncation points of [t]. *)
Definition earliest_cut (t : str) : nat :=
  (cut_at DIAMOND t `min` cut_at LBRACKET t) `min` cut_at FORMERLY t.

(** Where line 69 cuts: the test of line 68 lets the marker [' ♦'] cut
    at any position but the first. *)
Definition diamond_cut (t : str) : nat :=
  match index_of DIAMOND t with
  | Some (S k) => S k
  | _ => length t
  end.

(** The point at which the three cuts of [clean_text] together cut. *)
Definition code_cut (t : str) : nat :=
  (diamond_cut t `min` cut_at LBRACKET t) `min` cut_at FORMERLY t.

(** ** Ranks *)

(** The rank that a record carries, if it has one. *)
Definition rank_of (values : gmap string value) : option Z :=
  match values !! "rank" with
  | Some (VInt z) => Some z
  | _ => None
  end.

(** The ranks of the records of [data], in their order. *)
Definition ranks (data : list (gmap string value)) : list Z := omap rank_of data.

(** What the loop over the rows [rows] of a table leaves in [data]: one
    entry per data row, the row at index [k + 1] giving the entry [k],
    which carries the rank [k + 1] when the row has three cells or more
    and is the empty dict otherwise; so that the ranks lie in [1..R],
    strictly increase and do not repeat. *)
Definition rank_invariant (rows : list node) (data : list (gmap string value)) : Prop :=
  length data = (length rows - 1)%nat ∧
  (∀ k values, data !! k = Some values →
     ∃ row, rows !! S k = Some row ∧
       if bool_decide (3 ≤ length (find_all TD row))%nat
       then rank_of values = Some (Z.of_nat (S k))
       else values = ∅) ∧
  Forall (λ r, 1 ≤ r ≤ Z.of_nat (length rows - 1)) (ranks data) ∧
  StronglySorted Z.lt (ranks data) ∧
  NoDup (ranks data).

(** ** Example documents *)

Definition header_row : node :=
  elem TR [elem (py "th") [NavigableString (py "Stadium")];
           elem (py "th") [NavigableString (py "Capacity")]].

(** A data row with the seven cells of the page. *)
Definition full_row (stadium capacity city : string) : node :=
  elem TR [cell stadium; cell capacity; cell "Europe"; cell "Spain"; cell city;
           cell ""; cell "FC"].

(** A sortable wikitable with a header row and the given data rows. *)
Definition stadium_table (data_rows : list node) : node :=
  soup [elem_class TABLE [WIKITABLE; SORTABLE] (header_row :: data_rows)].

(** One data row of three, four and five cells. *)
Definition three_cells : node :=
  stadium_table [elem TR [cell "Camp Nou"; cell "99,354"; cell "Europe"]].
Definition four_cells : node :=
  stadium_table [elem TR [cell "Camp Nou"; cell "99,354"; cell "Europe"; cell "Spain"]].
Definition five_cells : node :=
  stadium_table [elem TR [cell "Camp Nou"; cell "99,354"; cell "Europe"; cell "Spain";
                          cell "Barcelona"]].

(** A header row and four data rows, the second with two cells only. *)
Definition five_rows : node :=
  stadium_table [full_row "Camp Nou" "99,354" "Barcelona";
                 elem TR [cell "Notes"; cell "none"];
                 full_row "Santiago Bernabeu" "81.044" "Madrid";
                 full_row "Metropolitano" "70,460" "Madrid"].

(** A document whose only table has the class [standard]. *)
Definition standard_table : node :=
  elem_class TABLE [STANDARD] [header_row; full_row "Camp Nou" "99,354" "Barcelona"].
Definition standard_only : node := soup [standard_table].

(** ** Doubles for the collaborators, and example batches *)

(** [int(s)] of a text, in base ten, as CPython 3.11 computes it.

    The text is first brought to ASCII
    ([_PyUnicode_TransformDecimalAndSpaceToASCII]): a text of ASCII
    characters is left as it is; in any other text a code point from 127
    on becomes a space when it is white space and its ASCII digit when
    it is a decimal digit, and ends the text with ['?'] otherwise.  The
    number is then read ([PyLong_FromString]): the white space of C
    around it is skipped, a sign may come first, and the digits follow,
    which single underscores may separate; more than 4300 digits are
    refused.  [None] stands for the [ValueError]. *)

(** The code points of the digit zero in the scripts of Unicode 14.0;
    the nine code points after each are its digits one to nine. *)
Definition DECIMAL_ZEROS : list N :=
  [
   48; 1632; 1776; 1984; 2406; 2534; 2662; 2790; 2918; 3046; 3174;
   3302; 3430; 3558; 3664; 3792; 3872; 4160; 4240; 6112; 6160; 6470;
   6608; 6784; 6800; 6992; 7088; 7232; 7248; 42528; 43216; 43264;
   43472; 43504; 43600; 44016; 65296; 66720; 68912; 69734; 69872;
   69942; 70096; 70384; 70736; 70864; 71248; 71360; 71472; 71904;
   72016; 72784; 73040; 73120; 92768; 92864; 93008; 120782; 120792;
   120802; 120812; 120822; 123200; 123632; 125264; 130032
  ]%N.

(** [Py_UNICODE_TODECIMAL]. *)
Definition to_decimal (c : char) : option N :=
  (λ zero, c - zero)%N <$>
    List.find (λ zero, (zero <=? c) && (c <? zero + 10))%N DECIMAL_ZEROS.

Fixpoint decimal_and_space_to_ascii (s : str) : str :=
  match s with
  | [] => []
  | c :: s' =>
      if (c <? 127)%N then c :: decimal_and_space_to_ascii s'
      else if isspace c then 32%N :: decimal_and_space_to_ascii s'
      else match to_decimal c with
           | Some d => (48 + d)%N :: decimal_and_space_to_ascii s'
           | None => [63%N]
           end
  end.

Definition transform_to_ascii (s : str) : str :=
  if forallb (λ c, c <? 128)%N s then s else decimal_and_space_to_ascii s.

(** [Py_ISSPACE]: the six white space characters of C. *)
Definition c_isspace (c : char) : bool :=
  ((9 <=? c) && (c <=? 13) || (c =? 32))%N.

Fixpoint skip_spaces (s : str) : str :=
  match s with
  | [] => []
  | c :: s' => if c_isspace c then skip_spaces s' else s
  end.

Definition digit_of (c : char) : option Z :=
  if ((48 <=? c) && (c <=? 57))%N then Some (Z.of_N c - 48) else None.

Fixpoint digits_go (acc : Z) (after_digit : bool) (s : str) : option Z :=
  match s with
  | [] => if after_digit then Some acc else None
  | c :: s' =>
      if (c =? 95)%N then (if after_digit then digits_go acc false s' else None)
      else match digit_of c with
           | Some d => digits_go (10 * acc + d) true s'
           | None => None
           end
  end.

(** [sys.int_info.default_max_str_digits]. *)
Definition MAX_STR_DIGITS : nat := 4300.

Definition read_digits (ds : str) : option Z :=
  if bool_decide (length (filter (λ c, c ≠ 95%N) ds) ≤ MAX_STR_DIGITS)%nat
  then digits_go 0 false ds
  else None.

Definition ascii_int (s : str) : option Z :=
  match rev (skip_spaces (rev (skip_spaces (transform_to_ascii s)))) with
  | 43%N :: ds => read_digits ds
  | 45%N :: ds => Z.opp <$> read_digits ds
  | ds => read_digits ds
  end.

(** A geocoder double with integer coordinates: the first two queries are
    answered with the same coordinate, every later one with a coordinate
    of its own. *)
Definition counting_geocoder (log : list str) (query : str) : option (Z * Z) :=
  if bool_decide (length log < 2)%nat then Some (0, 0)
  else Some (Z.of_nat (length log), 0).

Definition repr_pair (c : Z * Z) : str :=
  py ("(" +:+ pretty c.1 +:+ ", " +:+ pretty c.2 +:+ ")").





(** A record as [extract_wikipedia_data] builds it for a full row. *)
Definition stadium_record (rank : Z) (stadium capacity country city : string)
    : gmap string value :=
  <["home_team" := VStr (py "FC")]>
    (<["images" := VStr NO_IMAGE]>
       (<["city" := VStr (py city)]>
          (<["country" := VStr (py country)]>
             (<["region" := VStr (py "Europe")]>
                (<["capacity" := VStr (py capacity)]>
                   (<["stadium" := VStr (py stadium)]>
                      (<["rank" := VInt rank]> ∅))))))).

(** Two stadiums of the same city. *)
Definition madrid_batch : list (gmap string value) :=
  [stadium_record 1 "Santiago Bernabeu" "81044" "Spain" "Madrid";
   stadium_record 2 "Metropolitano" "70460" "Spain" "Madrid"].

(** A batch in which one capacity is not a number. *)
Definition unknown_capacity_batch : list (gmap string value) :=
  [stadium_record 1 "Camp Nou" "99354" "Spain" "Barcelona";
   stadium_record 2 "Nou Mestalla" "TBA" "Spain" "Valencia";
   stadium_record 3 "Metropolitano" "70460" "Spain" "Madrid"].

Definition empty_world : Pipeline.world (Z * Z) := Pipeline.World [] [] ∅.

(** The URL of the [__main__] block. *)
Definition STADIUMS_URL : str := Eval cbv in
  py "https://en.wikipedia.org/wiki/List_of_association_football_stadiums_by_capacity".

(** The query that [get_lat_long] sends for a row. *)
Definition query_of {coord} (repr_coord : coord → str)
    (x : gmap string (Pipeline.cell coord)) : str :=
  Pipeline.query repr_coord
    (default Pipeline.NaN (x !! "country")) (default Pipeline.NaN (x !! "city")).

(** The answers of the geocoder to the queries for the rows [xs], one
    after the other, [log] being the queries made before. *)
Fixpoint answers {coord} (repr_coord : coord → str)
    (geocode : list str → str → option coord) (log : list str)
    (xs : list (gmap string (Pipeline.cell coord))) : list (option coord) :=
  match xs with
  | [] => []
  | x :: xs' =>
      geocode log (query_of repr_coord x)
      :: answers repr_coord geocode (log ++ [query_of repr_coord x]) xs'
  end.

(** The world after the queries [qs]. *)
Definition add_queries {coord} (qs : list str) (w : Pipeline.world coord)
    : Pipeline.world coord :=
  {| Pipeline.queries := Pipeline.queries w ++ qs;
     Pipeline.requested := Pipeline.requested w;
     Pipeline.files := Pipeline.files w |}.

(** The value of the column [col] in the row [x]. *)
Definition at_column {coord} (col : string) (x : gmap string (Pipeline.cell coord))
    : Pipeline.cell coord :=
  default Pipeline.NaN (x !! col).

(** Two rows have the same location: equal coordinates, or both missing. *)
Definition same_location {coord} (x y : gmap string (Pipeline.cell coord)) : Prop :=
  Pipeline.missing_as_one (at_column "location" x)
  = Pipeline.missing_as_one (at_column "location" y).

(** The rows of [df] that line 161 selects, with their index labels. *)
Definition duplicates_of {coord} `{!EqDecision coord} (df : Pipeline.frame coord)
    : list (nat * gmap string (Pipeline.cell coord)) :=
  Pipeline.select df
    (Pipeline.duplicated_from []
       (Pipeline.missing_as_one <$> (at_column "location" <$> Pipeline.rows df))).

(** The batch of the two stadiums of Madrid once both are located at the
    same coordinate. *)
Definition madrid_located : Pipeline.frame (Z * Z) :=
  Pipeline.set_column (Pipeline.DataFrame madrid_batch) "location"
    [Pipeline.Tuple (0, 0); Pipeline.Tuple (0, 0)].

(** ** Documents without markup *)




Definition OUTPUT_FILE : str := Eval cbv in py "stadiums.csv".

(* ===================================================================== *)
(** * [dags/wikipedia_flow.py] *)
(* ===================================================================== *)

Module WikipediaFlow.

(** [soup.find("table", {"class": "wikitable"})]: the first table with
    the class token [wikitable], or [None]. *)
Definition find_wikitable (soup : node) : option node :=
  head (find_all_class TABLE [WIKITABLE] soup).

(** [[x.text.strip() for x in n.find_all(name)]]. *)
Definition stripped_texts (name : str) (n : node) : list str :=
  (λ x, str_strip (text x)) <$> find_all name n.

(** [dict(zip(headers, cols))]: the pairs up to the shorter list, a later
    pair replacing an earlier one with the same key. *)
Definition dict_zip (headers cols : list str) : gmap (list N) (list N) :=
  foldl (λ d kv, <[kv.1 := kv.2]> d) ∅ (zip headers cols).

(** [extract_stadium_data], lines 11-23.  [table.find_all] on [None]
    raises [AttributeError]; the header cells are read from [rows[1]]. *)
Definition extract_stadium_data (soup : node) : result (list (gmap (list N) (list N))) :=
  match find_wikitable soup with
  | None => Raise AttributeError
  | Some table =>
      let rows := find_all TR table in
      header_row ←ᵣ getitem rows 1;
      let headers := stripped_texts (py "th") header_row in
      for_each (drop 2 rows)
        (λ row data,
           let cols := stripped_texts TD row in
           match cols with
           | [] => Ok data
           | _ => Ok (data ++ [dict_zip headers cols])
           end) []
  end.

(** How a run of the flow ends: with a value, or with the exception that
    [requests.get] raised, that the parser raised on the content, or
    that [extract_stadium_data] raised.  Nothing in the file catches
    any of them. *)
Inductive outcome (R P A : Type) :=
| Returned (a : A)
| RequestRaised (e : R)
| ParserRaised (e : P)
| ExtractionRaised (e : exn).
Arguments Returned {R P A} a.
Arguments RequestRaised {R P A} e.
Arguments ParserRaised {R P A} e.
Arguments ExtractionRaised {R P A} e.

Section Fetch.

(** The exceptions of the two libraries. *)
Context {request_error parser_error : Type}.

(** [requests.get(url).content], and
    [BeautifulSoup(content, "html.parser")], which raises on markup that
    the parser rejects. *)
Variable requests_get : str → request_error + str.
Variable BeautifulSoup : str → parser_error + node.

(** [get_wikipedia_page], lines 5-9. *)
Definition get_wikipedia_page (url : str) : outcome request_error parser_error node :=
  match requests_get url with
  | inl e => RequestRaised e
  | inr content =>
      match BeautifulSoup content with
      | inl e => ParserRaised e
      | inr soup => Returned soup
      end
  end.

(** [wikipedia_flow], lines 25-29; the value is what the flow prints. *)
Definition wikipedia_flow (url : str)
    : outcome request_error parser_error (list (gmap (list N) (list N))) :=
  match get_wikipedia_page url with
  | Returned soup =>
      match extract_stadium_data soup with
      | Ok stadium_data => Returned stadium_data
      | Raise e => ExtractionRaised e
      end
  | RequestRaised e => RequestRaised e
  | ParserRaised e => ParserRaised e
  | ExtractionRaised e => ExtractionRaised e
  end.

End Fetch.

End WikipediaFlow.

(* ===================================================================== *)
(** * Notions of the further properties *)
(* ===================================================================== *)

(** The keys of a record of [extract_wikipedia_data], and of
    [get_wikipedia_data] in [findtable.py]. *)
Definition RECORD_KEYS : gset string :=
  {[ "rank"; "stadium"; "capacity"; "region"; "country"; "city"; "images"; "home_team" ]}.
Definition FINDTABLE_KEYS : gset string :=
  {[ "rank"; "stadium"; "capacity"; "region" ]}.

(** The record that lines 106-113 build from the cells [tds] of the row
    at index [i]. *)
Definition built_from (tds : list node) (i : nat) (values : gmap string value) : Prop :=
  ∃ stadium capacity region country city images home_team : str,
    Pipeline.clean_cell tds 0 = Ok stadium ∧
    Pipeline.clean_cell tds 1 = Ok capacity ∧
    Pipeline.clean_cell_or_empty tds 2 = Ok region ∧
    Pipeline.clean_cell_or_empty tds 3 = Ok country ∧
    Pipeline.clean_cell_or_empty tds 4 = Ok city ∧
    Pipeline.image_url tds = Ok images ∧
    Pipeline.clean_cell_or_empty tds 6 = Ok home_team ∧
    values =
      <["home_team" := VStr home_team]>
        (<["images" := VStr images]>
           (<["city" := VStr city]>
              (<["country" := VStr country]>
                 (<["region" := VStr region]>
                    (<["capacity" := VStr (str_replace (str_replace capacity COMMA []) PERIOD [])]>
                       (<["stadium" := VStr stadium]>
                          (<["rank" := VInt (Z.of_nat i)]> ∅))))))).

(** The data rows of a table: its rows but the first. *)
Definition data_rows (table : node) : list node := drop 1 (find_all TR table).

(** A tag that the class filter of [wikipedia_pipeline.py] selects. *)
Definition is_stadium_table (d : node) : Prop :=
  tag_named TABLE d && class_among Pipeline.TABLE_CLASSES d.

(** A computation that leaves the files and the requested pages as they
    are, and only adds to the queries. *)
Definition queries_only {coord A} (m : Pipeline.io coord A) : Prop :=
  ∀ w r w', m w = (r, w') →
    Pipeline.files w' = Pipeline.files w ∧
    Pipeline.requested w' = Pipeline.requested w ∧
    Pipeline.queries w `prefix_of` Pipeline.queries w'.

(** The columns that [transform_wikipedia_data] assigns. *)
Definition ASSIGNED_COLUMNS : gset string := {[ "location"; "images"; "capacity" ]}.

(** A table with a header row only, and a parser that returns it. *)
Definition header_only : node := stadium_table [].

(** The record that lines 45-48 of [findtable.py] build from the cells
    [tds] of the row at index [i]. *)
Definition findtable_built_from (tds : list node) (i : nat)
    (values : gmap string value) : Prop :=
  ∃ stadium capacity region : node,
    tds !! 0%nat = Some stadium ∧ tds !! 1%nat = Some capacity ∧
    tds !! 2%nat = Some region ∧
    values =
      <["region" := VStr (FindTable.clean_text (text region))]>
        (<["capacity" := VStr (str_replace
                                (str_replace (FindTable.clean_text (text capacity)) COMMA [])
                                PERIOD [])]>
           (<["stadium" := VStr (FindTable.clean_text (text stadium))]>
              (<["rank" := VInt (Z.of_nat i)]> ∅))).

(** A page in the layout that [dags/wikipedia_flow.py] reads: the header
    cells in the second row of the table. *)
Definition flow_header : node :=
  elem TR [elem (py "th") [NavigableString (py " Stadium ")];
           elem (py "th") [NavigableString (py "Capacity")]].
Definition flow_table : node :=
  elem_class TABLE [WIKITABLE]
    [elem TR [];
     flow_header;
     elem TR [cell "Camp Nou  "; cell "99,354"];
     elem TR [];
     elem TR [cell "Wembley"]].
Definition flow_page : node := soup [flow_table].

(** The table of [header_only], and a parser that answers every markup
    with that page. *)
Definition header_only_table : node :=
  elem_class TABLE [WIKITABLE; SORTABLE] [header_row].
Definition parse_header_only (markup : str) : node := header_only.

(** The table of [five_rows]. *)
Definition five_rows_table : node :=
  elem_class TABLE [WIKITABLE; SORTABLE]
    [header_row;
     full_row "Camp Nou" "99,354" "Barcelona";
     elem TR [cell "Notes"; cell "none"];
     full_row "Santiago Bernabeu" "81.044" "Madrid";
     full_row "Metropolitano" "70,460" "Madrid"].

(* ===================================================================== *)
(** * Properties of the [str] methods *)
(* ===================================================================== *)

Section StrLemmas.

Implicit Types (s t p sub sep old : list N) (c : N) (i j n m : nat).

Lemma startswith_prefix p s : startswith p s = true ↔ p `prefix_of` s.
Proof.
  revert s. induction p as [|a p IH]; intros [|b s]; simpl.
  - split; [intros _; apply prefix_nil | done].
  - split; [intros _; apply prefix_nil | done].
  - split; [done | intros H; by apply prefix_nil_not in H].
  - rewrite andb_true_iff, N.eqb_eq, IH. split.
    + intros [-> H]. by apply prefix_cons.
    + intros H. split; [by apply prefix_cons_inv_1 in H | by apply prefix_cons_inv_2 in H].
Qed.

Lemma startswith_take p s n :
  startswith p (take n s) = startswith p s && bool_decide (length p ≤ n)%nat.
Proof.
  revert s n. induction p as [|a p IH]; intros s n.
  - rewrite bool_decide_eq_true_2 by (simpl; lia). by destruct (take n s), s.
  - destruct s as [|b s]; [by destruct n|].
    destruct n as [|n].
    + rewrite bool_decide_eq_false_2 by (simpl; lia). by rewrite andb_false_r.
    + cbn [take startswith]. rewrite IH, <- andb_assoc. do 2 f_equal.
      apply bool_decide_ext. simpl. lia.
Qed.

Lemma startswith_lookup p s j c :
  startswith p s = true → p !! j = Some c → s !! j = Some c.
Proof.
  rewrite startswith_prefix. intros [k ->] H. by apply lookup_app_l_Some.
Qed.

Lemma startswith_length p s : startswith p s = true → (length p ≤ length s)%nat.
Proof. rewrite startswith_prefix. apply prefix_length. Qed.

(** [index_of] returns the first position at which [sub] starts. *)
Lemma index_of_Some sub s i :
  index_of sub s = Some i →
  startswith sub (drop i s) = true ∧ (i ≤ length s)%nat ∧
  ∀ j, (j < i)%nat → startswith sub (drop j s) = false.
Proof.
  revert i. induction s as [|c s IH]; intros i; simpl.
  - destruct (startswith sub []) eqn:E; [|done].
    intros [= <-]. split_and!; [done | done | lia].
  - destruct (startswith sub (c :: s)) eqn:E.
    + intros [= <-]. split_and!; [done | lia | lia].
    + destruct (index_of sub s) as [i'|] eqn:Ei; [|done].
      intros [= <-]. destruct (IH i' eq_refl) as (H1 & H2 & H3).
      split_and!; [done | simpl; lia |].
      intros [|j] Hj; [done|]. apply H3. lia.
Qed.

Lemma index_of_None sub s j : index_of sub s = None → startswith sub (drop j s) = false.
Proof.
  revert j. induction s as [|c s IH]; intros j; simpl.
  - destruct (startswith sub []) eqn:E; [done|]. intros _. by destruct j.
  - destruct (startswith sub (c :: s)) eqn:E; [done|].
    destruct (index_of sub s) eqn:Ei; [done|]. intros _.
    destruct j as [|j]; [done|]. by apply IH.
Qed.

Lemma index_of_take sub s n :
  index_of sub (take n s) =
  match index_of sub s with
  | Some i => if bool_decide (i + length sub ≤ n)%nat then Some i else None
  | None => None
  end.
Proof.
  revert n. induction s as [|c s IH]; intros n.
  - rewrite take_nil. destruct sub; [|done].
    cbn [index_of startswith]. by rewrite bool_decide_eq_true_2 by (simpl; lia).
  - destruct n as [|n].
    + rewrite take_0. destruct sub as [|a sub]; [done|].
      change (index_of (a :: sub) []) with (@None nat).
      destruct (index_of (a :: sub) (c :: s)); [|done].
      rewrite bool_decide_eq_false_2; [done | simpl; lia].
    + change (take (S n) (c :: s)) with (c :: take n s).
      cbn [index_of]. change (c :: take n s) with (take (S n) (c :: s)) at 1.
      rewrite startswith_take, IH.
      destruct (startswith sub (c :: s)) eqn:E; simpl.
      * case_bool_decide as Hn; simpl; [done|].
        destruct (index_of sub s) as [i|]; [|done]. simpl.
        rewrite bool_decide_eq_false_2; [done | lia].
      * destruct (index_of sub s) as [i|]; [|done]. simpl.
        destruct (bool_decide (i + length sub ≤ n)%nat) eqn:Eb.
        -- apply bool_decide_eq_true in Eb. rewrite bool_decide_eq_true_2 by lia. done.
        -- apply bool_decide_eq_false in Eb. rewrite bool_decide_eq_false_2 by lia. done.
Qed.

Lemma split_go_not_nil sep k s : split_go sep k s ≠ [].
Proof.
  revert k. induction s as [|c s IH]; intros k; simpl; [done|].
  destruct k; [|apply IH].
  destruct (startswith sep (c :: s)); [done|].
  by destruct (split_go sep 0 s).
Qed.

(** [s.split(sep)[0]] is [s] up to the first occurrence of [sep]. *)
Lemma head_split_go sep s :
  head (split_go sep 0 s) = Some (take (default (length s) (index_of sep s)) s).
Proof.
  induction s as [|c s IH]; simpl.
  - by destruct (startswith sep []).
  - destruct (startswith sep (c :: s)); [done|].
    destruct (split_go sep 0 s) as [|piece pieces] eqn:E; [by apply split_go_not_nil in E|].
    simpl in *. injection IH as ->. by destruct (index_of sep s).
Qed.

Lemma split_first s sep :
  sep ≠ [] →
  (pieces ←ᵣ str_split s sep; getitem pieces 0)
  = Ok (take (default (length s) (index_of sep s)) s).
Proof.
  intros Hsep. unfold str_split. destruct sep; [done|]. simpl.
  unfold getitem. rewrite <- head_lookup, head_split_go. done.
Qed.

Lemma str_find_index s sub : str_find s sub = from_option Z.of_nat (-1) (index_of sub s).
Proof. unfold str_find. by destruct (index_of sub s). Qed.

(** Deleting occurrences only deletes characters. *)
Lemma replace_go_sublist old k s : replace_go old [] k s `sublist_of` s.
Proof.
  revert k. induction s as [|c s IH]; intros k; simpl; [done|].
  destruct k; [|by apply sublist_cons].
  destruct (startswith old (c :: s)); simpl.
  - by apply sublist_cons.
  - by apply sublist_skip.
Qed.

Lemma str_replace_sublist s old : old ≠ [] → str_replace s old [] `sublist_of` s.
Proof. intros H. destruct old; [done|]. apply replace_go_sublist. Qed.

Lemma index_of_single_None c s : index_of [c] s = None ↔ c ∉ s.
Proof.
  induction s as [|b s IH]; simpl.
  - split; [intros _; apply not_elem_of_nil | done].
  - rewrite andb_true_r. destruct (N.eqb_spec c b) as [->|Hne].
    + split; [done | intros H; exfalso; apply H; left].
    + rewrite not_elem_of_cons. destruct (index_of [c] s); simpl; [|tauto].
      split; [done | intros [_ H]; by apply IH in H].
Qed.

Lemma contains_single c s : contains [c] s = false ↔ c ∉ s.
Proof.
  rewrite <- index_of_single_None. unfold contains.
  destruct (index_of [c] s); split; done.
Qed.

Lemma replace_go_absent c new s : c ∉ s → replace_go [c] new 0 s = s.
Proof.
  induction s as [|b s IH]; [done|]. rewrite not_elem_of_cons. intros [Hne Hs].
  simpl. rewrite andb_true_r. destruct (N.eqb_spec c b); [done|]. by rewrite IH.
Qed.

End StrLemmas.

Section CleanText.

Implicit Types (s t text : list N) (c : N) (i j n : nat).

Lemma cut_at_le sep t : (cut_at sep t ≤ length t)%nat.
Proof.
  unfold cut_at. destruct (index_of sep t) as [i|] eqn:E; simpl; [|done].
  by apply index_of_Some in E as (_ & ? & _).
Qed.

Lemma diamond_cut_le t : (diamond_cut t ≤ length t)%nat.
Proof.
  unfold diamond_cut. destruct (index_of DIAMOND t) as [[|k]|] eqn:E; try done.
  by apply index_of_Some in E as (_ & ? & _).
Qed.

Lemma index_of_lookup sub t i j c :
  index_of sub t = Some i → sub !! j = Some c → t !! (i + j)%nat = Some c.
Proof.
  intros Hi Hj. apply index_of_Some in Hi as (H & _ & _).
  rewrite <- lookup_drop. by eapply startswith_lookup.
Qed.

(** The three steps of truncation, one after the other. *)
Lemma clean_text_steps text :
  Pipeline.clean_text text =
  Ok (let t1 := str_replace (str_strip text) NBSP [] in
      let t2 := take (diamond_cut t1) t1 in
      let t3 := take (cut_at LBRACKET t2) t2 in
      let t4 := take (cut_at FORMERLY t3) t3 in
      str_replace t4 NEWLINE []).
Proof.
  unfold Pipeline.clean_text. cbv zeta.
  set (t1 := str_replace (str_strip text) NBSP []).
  assert ((if bool_decide (str_find t1 DIAMOND ≠ 0)
           then pieces ←ᵣ str_split t1 DIAMOND; getitem pieces 0
           else Ok t1) = Ok (take (diamond_cut t1) t1)) as ->.
  { rewrite split_first by done. unfold diamond_cut. rewrite str_find_index.
    destruct (index_of DIAMOND t1) as [[|k]|]; simpl; [by rewrite take_ge | done | done]. }
  simpl. set (t2 := take (diamond_cut t1) t1).
  assert (∀ sep t, sep ≠ [] →
            (if bool_decide (str_find t sep ≠ -1)
             then pieces ←ᵣ str_split t sep; getitem pieces 0
             else Ok t) = Ok (take (cut_at sep t) t)) as Hstep.
  { intros sep t Hsep. rewrite split_first by done. unfold cut_at.
    rewrite str_find_index. destruct (index_of sep t); simpl.
    - rewrite bool_decide_eq_true_2 by lia. done.
    - by rewrite take_ge. }
  rewrite Hstep by done. simpl. rewrite Hstep by done. done.
Qed.

(** A cut inside an earlier cut, when no occurrence of the marker
    straddles the earlier cut. *)
Lemma take_cut_at_take sep t n :
  (∀ i, index_of sep t = Some i → i < n → i + length sep ≤ n)%nat →
  take (cut_at sep (take n t)) (take n t) = take (n `min` cut_at sep t) t.
Proof.
  intros Hstraddle. unfold cut_at. rewrite index_of_take.
  destruct (index_of sep t) as [i|] eqn:Ei; simpl.
  - case_bool_decide as Hi; simpl.
    + rewrite take_take. f_equal. lia.
    + rewrite take_ge by done.
      destruct (decide (i < n)%nat) as [Hlt|Hge].
      * specialize (Hstraddle i eq_refl Hlt). lia.
      * f_equal. lia.
  - rewrite take_ge by done. rewrite <- (take_take t n (length t)).
    rewrite (take_ge t (length t)); done.
Qed.

(** The first two cuts end the text, or stop at a ['['] or at the space
    that starts [' ♦']. *)
Lemma first_cuts_char t :
  let n := (diamond_cut t `min` cut_at LBRACKET t)%nat in
  n = length t ∨ t !! n = Some 91%N ∨ t !! n = Some 32%N.
Proof.
  intros n. pose proof (diamond_cut_le t) as Hd. pose proof (cut_at_le LBRACKET t) as Hb.
  destruct (decide (n = length t)) as [|Hn]; [by left | right].
  destruct (decide (cut_at LBRACKET t ≤ diamond_cut t)%nat) as [Hle|Hgt].
  - left. replace n with (cut_at LBRACKET t) in * by lia. unfold cut_at in *.
    destruct (index_of LBRACKET t) as [i|] eqn:Ei; simpl in *; [|done].
    rewrite <- (Nat.add_0_r i). by eapply index_of_lookup.
  - right. replace n with (diamond_cut t) in * by lia. unfold diamond_cut in *.
    destruct (index_of DIAMOND t) as [[|k]|] eqn:Ei; try done.
    rewrite <- (Nat.add_0_r (S k)). by eapply index_of_lookup.
Qed.

(** [' (formerly)'] never straddles the point of the first two cuts: but
    for its first character it holds neither a space nor a ['[']. *)
Lemma formerly_no_straddle t i :
  let n := (diamond_cut t `min` cut_at LBRACKET t)%nat in
  index_of FORMERLY t = Some i → (i < n → i + length FORMERLY ≤ n)%nat.
Proof.
  intros n Hi Hlt. change (length FORMERLY) with 11%nat.
  destruct (first_cuts_char t) as [Hn|Hn]; fold n in Hn.
  - apply index_of_Some in Hi as (H & _ & _). apply startswith_length in H.
    rewrite length_drop in H. change (length FORMERLY) with 11%nat in H. lia.
  - destruct (decide (i + 11 ≤ n)%nat) as [|Hgt]; [done | exfalso].
    assert (∃ j, n = (i + S j)%nat ∧ (j < 10)%nat) as (j & Hj & Hj10).
    { exists (n - i - 1)%nat. lia. }
    rewrite Hj in Hn.
    assert (∀ c, FORMERLY !! S j = Some c → c ≠ 91%N ∧ c ≠ 32%N) as Hc.
    { do 10 (destruct j as [|j]; [by intros c [= <-]|]). lia. }
    destruct (lookup_lt_is_Some_2 FORMERLY (S j)) as [c Hcj].
    { change (length FORMERLY) with 11%nat. lia. }
    rewrite (index_of_lookup _ _ _ _ _ Hi Hcj) in Hn.
    destruct (Hc c Hcj) as [H91 H32]. destruct Hn as [[= ->]|[= ->]]; done.
Qed.

Lemma cuts_together t :
  let t2 := take (diamond_cut t) t in
  let t3 := take (cut_at LBRACKET t2) t2 in
  take (cut_at FORMERLY t3) t3 = take (code_cut t) t.
Proof.
  intros t2 t3. unfold t3, t2.
  rewrite (take_cut_at_take LBRACKET).
  2:{ intros i _ Hi. change (length LBRACKET) with 1%nat. lia. }
  rewrite (take_cut_at_take FORMERLY).
  2:{ intros i Hi. by apply formerly_no_straddle. }
  done.
Qed.

Lemma clean_text_cut text :
  let t := str_replace (str_strip text) NBSP [] in
  Pipeline.clean_text text = Ok (str_replace (take (code_cut t) t) NEWLINE []).
Proof. intros t. rewrite clean_text_steps. cbv zeta. by rewrite cuts_together. Qed.

(** When the marker [' ♦'] does not start the text, the cuts are at the
    earliest truncation point. *)
Lemma code_cut_earliest t :
  index_of DIAMOND t ≠ Some 0%nat → code_cut t = earliest_cut t.
Proof.
  intros H. unfold code_cut, earliest_cut, diamond_cut, cut_at.
  by destruct (index_of DIAMOND t) as [[|k]|].
Qed.

Lemma contains_take_cut_at sep t n :
  (n ≤ cut_at sep t)%nat → sep ≠ [] → contains sep (take n t) = false.
Proof.
  intros Hn Hsep. unfold contains, cut_at in *. rewrite index_of_take.
  destruct (index_of sep t) as [i|]; simpl in *; [|done].
  rewrite bool_decide_eq_false_2; [done|]. destruct sep; [done | simpl; lia].
Qed.

Lemma contains_take sep t n : contains sep t = false → contains sep (take n t) = false.
Proof.
  unfold contains. rewrite index_of_take. by destruct (index_of sep t).
Qed.

Lemma replace_go_removed c s : c ∉ replace_go [c] [] 0 s.
Proof.
  induction s as [|b s IH]; simpl; [apply not_elem_of_nil|].
  rewrite andb_true_r. destruct (N.eqb_spec c b); simpl; [done|].
  rewrite not_elem_of_cons. done.
Qed.

End CleanText.

(* ===================================================================== *)
(** * The text normalizer *)
(* ===================================================================== *)

(** C9: [clean_text] never raises: for every text it returns a string,
    and the empty string is among its results. *)
Theorem clean_text_total :
  (∀ text : str, ∃ out : str, Pipeline.clean_text text = Ok out) ∧
  Pipeline.clean_text [] = Ok [].
Proof.
  split; [|reflexivity].
  intros text. eexists. apply clean_text_cut.
Qed.

(** C7: a text in which [' ♦'] comes first once ['&nbsp'] is removed is
    left as it is, marker included, because [text.find(' ♦')] is then [0],
    which is false; at any later position the marker does cut. *)
Theorem clean_text_diamond_first :
  let text : str := py "&nbsp" ++ DIAMOND ++ py "Camp Nou" in
  contains DIAMOND text = true ∧
  Pipeline.clean_text text = Ok (DIAMOND ++ py "Camp Nou") ∧
  Pipeline.clean_text (py "Camp Nou" ++ DIAMOND ++ py "&nbsp") = Ok (py "Camp Nou").
Proof. vm_compute. done. Qed.

(** C6, as stated, fails: this text holds the three artifacts, and the
    result of [clean_text] still holds ['&nbsp'], put together from the
    two parts around the occurrence that was removed. *)
Lemma clean_text_artifact_remains :
  let text : str := py "&nb&nbspsp [1] (formerly)" in
  contains LBRACKET text = true ∧ contains FORMERLY text = true ∧
  contains NBSP text = true ∧
  Pipeline.clean_text text = Ok (py "&nbsp ") ∧
  contains NBSP (py "&nbsp ") = true.
Proof. vm_compute. done. Qed.

(** C6, amended: the result of [clean_text] holds no ['['] and no
    newline; when the stripped text, without its ['&nbsp'] tokens, has no
    newline and no ['&nbsp'] left, the result holds neither
    [' (formerly)'] nor ['&nbsp']; and when that text does not start with
    the marker [' ♦'], the result is its part before the earliest
    truncation point, freed of newlines. *)
Theorem clean_text_truncates (text : str) :
  let t := str_replace (str_strip text) NBSP [] in
  ∃ out : str,
    Pipeline.clean_text text = Ok out ∧
    contains LBRACKET out = false ∧
    contains NEWLINE out = false ∧
    (contains NEWLINE t = false → contains NBSP t = false →
     contains FORMERLY out = false ∧ contains NBSP out = false) ∧
    (index_of DIAMOND t ≠ Some 0%nat →
     out = str_replace (take (earliest_cut t) t) NEWLINE []).
Proof.
  intros t. eexists. split; [apply clean_text_cut|]. fold t.
  assert (contains LBRACKET (take (code_cut t) t) = false) as Hb.
  { apply contains_take_cut_at; [unfold code_cut; lia | done]. }
  assert (contains FORMERLY (take (code_cut t) t) = false) as Hf.
  { apply contains_take_cut_at; [unfold code_cut; lia | done]. }
  split_and!.
  - apply contains_single. apply contains_single in Hb. intros Hin. apply Hb.
    eapply elem_of_sublist; [exact Hin|]. by apply str_replace_sublist.
  - apply contains_single, replace_go_removed.
  - intros Hnl Hnbsp.
    assert (str_replace (take (code_cut t) t) NEWLINE [] = take (code_cut t) t) as ->.
    { apply replace_go_absent. apply contains_single. by apply contains_take. }
    split; [done | by apply contains_take].
  - intros Hdiamond. by rewrite code_cut_earliest.
Qed.

(** The same on a text with the three artifacts, a footnote, a qualifier
    and a token, around the name of a stadium. *)
Lemma clean_text_truncates_witness :
  let text : str := py "  Camp Nou&nbsp [1] (formerly) " ++ NEWLINE in
  let t := str_replace (str_strip text) NBSP [] in
  (contains LBRACKET text = true ∧ contains FORMERLY text = true ∧
   contains NBSP text = true) ∧
  contains NEWLINE t = false ∧ contains NBSP t = false ∧
  index_of DIAMOND t ≠ Some 0%nat ∧
  ∃ out : str,
    Pipeline.clean_text text = Ok out ∧ out = py "Camp Nou " ∧
    contains LBRACKET out = false ∧ contains FORMERLY out = false ∧
    contains NBSP out = false.
Proof.
  intros text t.
  destruct (clean_text_truncates text) as (out & Hout & Hb & _ & Hclean & Hcut).
  destruct Hclean as (Hf & Hn); [reflexivity | reflexivity |].
  split; [by vm_compute|]. split; [reflexivity|]. split; [reflexivity|].
  split; [by vm_compute|].
  exists out. split_and!; [done | | done | done | done].
  rewrite Hcut; [reflexivity | by vm_compute].
Defined.

(* ===================================================================== *)
(** * The row extractor *)
(* ===================================================================== *)

Section Rows.

Implicit Types (rows tds : list node) (data : list (gmap string value)).
Implicit Types (values : gmap string value) (i j k n a : nat).

(** Takes apart a chain of binds that returned. *)
Ltac bind_inv H :=
  repeat match type of H with
    | rbind ?m _ = Ok _ =>
        let E := fresh "E" in destruct m eqn:E; simpl in H; [|discriminate H]
    end.

Lemma getitem_Some {A} (l : list A) i x : getitem l i = Ok x ↔ l !! i = Some x.
Proof. unfold getitem. destruct (l !! i); naive_solver. Qed.

Lemma getitem_IndexError {A} (l : list A) i : (length l ≤ i)%nat → getitem l i = Raise IndexError.
Proof. intros H. unfold getitem. by rewrite lookup_ge_None_2. Qed.

Lemma clean_cell_Ok tds k :
  (k < length tds)%nat → ∃ s, Pipeline.clean_cell tds k = Ok s.
Proof.
  intros Hk. unfold Pipeline.clean_cell.
  destruct (lookup_lt_is_Some_2 tds k Hk) as [td Htd].
  unfold getitem. rewrite Htd. simpl. eexists. apply clean_text_cut.
Qed.

Lemma clean_cell_or_empty_Ok tds k : ∃ s, Pipeline.clean_cell_or_empty tds k = Ok s.
Proof.
  unfold Pipeline.clean_cell_or_empty. case_bool_decide; [by apply clean_cell_Ok | by eexists].
Qed.

(** Line 112 reads [tds[5]] whatever the length of the row. *)
Lemma image_url_short tds : (length tds ≤ 5)%nat → Pipeline.image_url tds = Raise IndexError.
Proof. intros H. unfold Pipeline.image_url. by rewrite getitem_IndexError. Qed.

(** A row of three to five cells makes the loop body raise. *)
Lemma extract_row_short rows i row data :
  rows !! i = Some row →
  (3 ≤ length (find_all TD row) ≤ 5)%nat →
  Pipeline.extract_row rows i data = Raise IndexError.
Proof.
  intros Hrow [H3 H5]. unfold Pipeline.extract_row.
  apply getitem_Some in Hrow as ->. simpl.
  rewrite bool_decide_eq_true_2 by done.
  destruct (clean_cell_Ok (find_all TD row) 0) as [s0 ->]; [lia|].
  destruct (clean_cell_Ok (find_all TD row) 1) as [s1 ->]; [lia|].
  destruct (clean_cell_or_empty_Ok (find_all TD row) 2) as [s2 ->].
  destruct (clean_cell_or_empty_Ok (find_all TD row) 3) as [s3 ->].
  destruct (clean_cell_or_empty_Ok (find_all TD row) 4) as [s4 ->].
  simpl. by rewrite image_url_short.
Qed.

(** What one turn of the loop of [extract_wikipedia_data] appends. *)
Lemma extract_row_inv rows i data data' :
  Pipeline.extract_row rows i data = Ok data' →
  ∃ row values, rows !! i = Some row ∧ data' = data ++ [values] ∧
    if bool_decide (3 ≤ length (find_all TD row))%nat
    then rank_of values = Some (Z.of_nat i)
    else values = ∅.
Proof.
  unfold Pipeline.extract_row. intros H.
  destruct (getitem rows i) as [row|] eqn:Hrow; [|done]. simpl in H.
  apply getitem_Some in Hrow. exists row.
  case_bool_decide as Hlen.
  - bind_inv H. rename E into Hvalues. bind_inv Hvalues.
    injection Hvalues as <-. injection H as <-.
    eexists. split_and!; [done | done |]. reflexivity.
  - simpl in H. injection H as <-. by exists ∅.
Qed.

(** The same for [findtable.py], where the loop body always returns. *)
Lemma findtable_extract_row rows i row data :
  rows !! i = Some row →
  ∃ values, FindTable.extract_row rows i data = Ok (data ++ [values]) ∧
    if bool_decide (3 ≤ length (find_all TD row))%nat
    then rank_of values = Some (Z.of_nat i)
    else values = ∅.
Proof.
  intros Hrow. unfold FindTable.extract_row.
  apply getitem_Some in Hrow as ->. simpl.
  case_bool_decide as Hlen.
  - assert (∀ k, (k < 3)%nat → ∃ s, FindTable.clean_cell (find_all TD row) k = Ok s) as Hcell.
    { intros k Hk. unfold FindTable.clean_cell, getitem.
      destruct (lookup_lt_is_Some_2 (find_all TD row) k) as [td ->]; [lia|]. by eexists. }
    destruct (Hcell 0%nat) as [s0 ->]; [lia|].
    destruct (Hcell 1%nat) as [s1 ->]; [lia|].
    rewrite bool_decide_eq_true_2 by lia.
    destruct (Hcell 2%nat) as [s2 ->]; [lia|].
    simpl. eexists. split; [done|]. reflexivity.
  - simpl. by exists ∅.
Qed.

(** The loop, for any body that appends one such entry per turn. *)
Lemma for_each_rows_inv
    (body : nat → list (gmap string value) → result (list (gmap string value))) rows :
  (∀ i data data', body i data = Ok data' →
     ∃ row values, rows !! i = Some row ∧ data' = data ++ [values] ∧
       if bool_decide (3 ≤ length (find_all TD row))%nat
       then rank_of values = Some (Z.of_nat i)
       else values = ∅) →
  ∀ n a data data',
    for_each (seq a n) body data = Ok data' →
    ∃ new, data' = data ++ new ∧ length new = n ∧
      ∀ j values, new !! j = Some values →
        ∃ row, rows !! (a + j)%nat = Some row ∧
          if bool_decide (3 ≤ length (find_all TD row))%nat
          then rank_of values = Some (Z.of_nat (a + j))
          else values = ∅.
Proof.
  intros Hbody. induction n as [|n IH]; intros a data data'; simpl.
  - intros [= <-]. exists []. rewrite app_nil_r. split_and!; [done | done | done].
  - destruct (body a data) as [data1|] eqn:E; [|done]. simpl. intros H.
    apply Hbody in E as (row & values & Hrow & -> & Hvalues).
    apply IH in H as (new & -> & Hlen & Hnew).
    exists (values :: new). rewrite <- app_assoc. split_and!; [done | simpl; lia |].
    intros [|j] v; simpl.
    + intros [= <-]. exists row. by rewrite Nat.add_0_r.
    + intros Hj. apply Hnew in Hj. by rewrite <- Nat.add_succ_comm.
Qed.

Lemma for_each_rows_total
    (body : nat → list (gmap string value) → result (list (gmap string value))) rows :
  (∀ i row data, rows !! i = Some row → ∃ values, body i data = Ok (data ++ [values])) →
  ∀ n a data, (n = 0 ∨ a + n ≤ length rows)%nat → is_Ok (for_each (seq a n) body data).
Proof.
  intros Hbody. induction n as [|n IH]; intros a data Hn; simpl.
  - by eexists.
  - destruct (lookup_lt_is_Some_2 rows a) as [row Hrow]; [lia|].
    destruct (Hbody a row data Hrow) as [values ->]. simpl. apply IH. lia.
Qed.

(** Entries that carry the rank of their position give ranks in order. *)
Lemma ranks_of_positions data a :
  (∀ j values, data !! j = Some values →
     values = ∅ ∨ rank_of values = Some (Z.of_nat (a + j))) →
  Forall (λ r, Z.of_nat a ≤ r < Z.of_nat (a + length data)) (ranks data) ∧
  StronglySorted Z.lt (ranks data).
Proof.
  revert a. induction data as [|values data IH]; intros a H; simpl.
  - split; constructor.
  - destruct (IH (S a)) as [Hran Hsort].
    { intros j v Hj. rewrite Nat.add_succ_comm. by apply (H (S j)). }
    unfold ranks. simpl. fold (ranks data).
    destruct (H 0%nat values eq_refl) as [->|Hr].
    + change (rank_of ∅) with (@None Z). simpl. split; [|done].
      eapply Forall_impl; [exact Hran|]. simpl. intros r. lia.
    + rewrite Hr. simpl. split.
      * constructor; [lia|]. eapply Forall_impl; [exact Hran|]. simpl. intros r. lia.
      * constructor; [done|]. eapply Forall_impl; [exact Hran|]. simpl. intros r. lia.
Qed.

Lemma StronglySorted_lt_NoDup (l : list Z) : StronglySorted Z.lt l → NoDup l.
Proof.
  induction 1 as [|x l Hl IH Hx]; constructor; [|done].
  intros Hin. rewrite Forall_forall in Hx. specialize (Hx x Hin). lia.
Qed.

(** From the shape of the entries to the invariant of the ranks. *)
Lemma rank_invariant_intro rows data :
  length data = (length rows - 1)%nat →
  (∀ j values, data !! j = Some values →
     ∃ row, rows !! (1 + j)%nat = Some row ∧
       if bool_decide (3 ≤ length (find_all TD row))%nat
       then rank_of values = Some (Z.of_nat (1 + j))
       else values = ∅) →
  rank_invariant rows data.
Proof.
  intros Hlen Hdata. destruct (ranks_of_positions data 1) as [Hran Hsort].
  { intros j v Hj. destruct (Hdata j v Hj) as (row & _ & Hv).
    case_bool_decide; [by right | by left]. }
  split_and!; [done | exact Hdata | | done | by apply StronglySorted_lt_NoDup].
  eapply Forall_impl; [exact Hran|]. simpl. intros r. lia.
Qed.

End Rows.

(** C1: a data row of three, four or five cells makes
    [extract_wikipedia_data] raise [IndexError] at [tds[5]], where the
    neighbouring lines test the length first. *)
Theorem extract_short_row_raises :
  Pipeline.extract_wikipedia_data_soup three_cells = Raise IndexError ∧
  Pipeline.extract_wikipedia_data_soup four_cells = Raise IndexError ∧
  Pipeline.extract_wikipedia_data_soup five_cells = Raise IndexError.
Proof. split_and!; vm_compute; reflexivity. Qed.

(** A property of the data that an extraction returned. *)
Lemma returned_data {A} (r : result (option A)) (P : A → Prop) :
  match r with Ok (Some data) => P data | _ => False end →
  ∃ data, r = Ok (Some data) ∧ P data.
Proof. destruct r as [[data|]|]; naive_solver. Qed.

(** C2: the row of two cells leaves an empty dict in the data: four
    entries for four data rows, the second without any key, in both
    extractors.  In the frame it is a row of [NaN], at which the
    conversion of the capacities raises. *)
Theorem extract_short_row_kept :
  (∃ data, Pipeline.extract_wikipedia_data_soup five_rows = Ok (Some data) ∧
     length data = 4%nat ∧ data !! 1%nat = Some ∅ ∧ ranks data = [1; 3; 4] ∧
     (Pipeline.transform_wikipedia_data repr_pair counting_geocoder ascii_int
        (Pipeline.DataFrame data) empty_world).1 = Raise ValueError) ∧
  (∃ data, FindTable.get_wikipedia_data_soup five_rows = Ok (Some data) ∧
     length data = 4%nat ∧ data !! 1%nat = Some ∅ ∧ ranks data = [1; 3; 4]).
Proof. split; apply returned_data; vm_compute; done. Qed.

(** The locator of [findtable.py]: the first table of the first class
    list, else the first table of the second, else none. *)
Lemma findtable_locate_table soup :
  FindTable.locate_table soup =
  match find_all_class TABLE FindTable.TABLE_CLASSES soup with
  | table :: _ => Some table
  | [] => head (find_all_class TABLE FindTable.ALTERNATIVE_CLASSES soup)
  end.
Proof.
  unfold FindTable.locate_table.
  by destruct (find_all_class TABLE FindTable.TABLE_CLASSES soup).
Qed.

(** C5: on a document whose only table has the class [standard], the
    locator of [findtable.py] falls back and finds it, while
    [wikipedia_pipeline.py] searches the first class list only and reports
    that there is no table. *)
Theorem locator_without_fallback :
  FindTable.locate_table standard_only = Some standard_table ∧
  Pipeline.get_wikipedia_data_soup standard_only = None ∧
  Pipeline.extract_wikipedia_data_soup standard_only = Ok None.
Proof. split_and!; vm_compute; reflexivity. Qed.

(** C8: the ranks that the row extractor assigns.  Whenever
    [extract_wikipedia_data] returns its data for a table, and always for
    [get_wikipedia_data] of [findtable.py], the data holds one entry per
    data row, the entry of a row of three cells or more carrying the
    position of the row as its rank, so that the ranks are within
    [1..R], strictly increasing and without repetition. *)
Theorem rank_values (soup table : node) :
  (∀ data,
     head (find_all_class TABLE Pipeline.TABLE_CLASSES soup) = Some table →
     Pipeline.extract_wikipedia_data_soup soup = Ok (Some data) →
     rank_invariant (find_all TR table) data) ∧
  (FindTable.locate_table soup = Some table →
   ∃ data, FindTable.get_wikipedia_data_soup soup = Ok (Some data) ∧
     rank_invariant (find_all TR table) data).
Proof.
  split.
  - intros data Htable. unfold Pipeline.extract_wikipedia_data_soup.
    destruct (find_all_class TABLE Pipeline.TABLE_CLASSES soup) as [|t ts]; [done|].
    injection Htable as ->.
    destruct (for_each _ _ _) as [data'|] eqn:E; [|done]. simpl. intros [= <-].
    apply (for_each_rows_inv _ _ (extract_row_inv _)) in E as (new & -> & Hlen & Hnew).
    by apply rank_invariant_intro.
  - intros Htable. unfold FindTable.get_wikipedia_data_soup. rewrite Htable.
    set (rows := find_all TR table).
    destruct (for_each_rows_total (FindTable.extract_row rows) rows) with
      (n := (length rows - 1)%nat) (a := 1%nat) (data := @nil (gmap string value))
      as [data E].
    { intros i row data Hrow.
      destruct (findtable_extract_row rows i row data Hrow) as (values & -> & _).
      by eexists. }
    { lia. }
    unfold range. rewrite E. simpl. eexists. split; [done|].
    eapply for_each_rows_inv in E as (new & -> & Hlen & Hnew).
    + by apply rank_invariant_intro.
    + intros i d d' Hbody.
      destruct (lookup_lt_is_Some_2 rows i) as [row Hrow].
      { unfold FindTable.extract_row in Hbody.
        destruct (getitem rows i) eqn:Hi; [|done].
        apply getitem_Some in Hi. by eapply lookup_lt_Some. }
      destruct (findtable_extract_row rows i row d Hrow) as (values & Hv & Hshape).
      rewrite Hv in Hbody. injection Hbody as <-. by exists row, values.
Qed.

(** The same on the table of five rows, for both extractors. *)
Lemma rank_values_witness :
  ∃ table data data',
    head (find_all_class TABLE Pipeline.TABLE_CLASSES five_rows) = Some table ∧
    FindTable.locate_table five_rows = Some table ∧
    Pipeline.extract_wikipedia_data_soup five_rows = Ok (Some data) ∧
    rank_invariant (find_all TR table) data ∧
    FindTable.get_wikipedia_data_soup five_rows = Ok (Some data') ∧
    rank_invariant (find_all TR table) data'.
Proof.
  destruct (head (find_all_class TABLE Pipeline.TABLE_CLASSES five_rows))
    as [table|] eqn:Htable; [|vm_compute in Htable; discriminate].
  assert (FindTable.locate_table five_rows = Some table) as Hlocate.
  { rewrite <- Htable. vm_compute. reflexivity. }
  destruct (returned_data (Pipeline.extract_wikipedia_data_soup five_rows) (λ _, True))
    as (data & Hdata & _); [by vm_compute|].
  destruct (proj2 (rank_values five_rows table) Hlocate) as (data' & Hdata' & Hranks).
  exists table, data, data'. split_and!; [done | done | done | | done | done].
  by apply (proj1 (rank_values five_rows table)).
Defined.

(* ===================================================================== *)
(** * Enrichment *)
(* ===================================================================== *)

Section TransformLemmas.

Context {coord : Type} `{!EqDecision coord}.
Variable repr_coord : coord → str.
Variable geocode : list str → str → option coord.
Variable int_of_str : str → option Z.

Implicit Types (df : Pipeline.frame coord) (w : Pipeline.world coord).
Implicit Types (x : gmap string (Pipeline.cell coord)).
Implicit Types (xs : list (gmap string (Pipeline.cell coord))).

Lemma add_queries_nil w : add_queries [] w = w.
Proof. destruct w. unfold add_queries. simpl. by rewrite app_nil_r. Qed.

Lemma add_queries_cons q qs w :
  add_queries qs (Pipeline.add_query q w) = add_queries (q :: qs) w.
Proof. unfold add_queries, Pipeline.add_query. simpl. by rewrite <- app_assoc. Qed.

Lemma row_get_Ok df x col :
  col ∈ Pipeline.columns df → Pipeline.row_get df x col = Ok (at_column col x).
Proof. intros H. unfold Pipeline.row_get. by rewrite bool_decide_eq_true_2. Qed.

(** One call of the lambda of lines 156 and 162. *)
Lemma locate_run df x w :
  "country" ∈ Pipeline.columns df → "city" ∈ Pipeline.columns df →
  Pipeline.locate repr_coord geocode df x w =
  (Ok (Pipeline.cell_of_location (geocode (Pipeline.queries w) (query_of repr_coord x))),
   Pipeline.add_query (query_of repr_coord x) w).
Proof.
  intros Hcountry Hcity. unfold Pipeline.locate, Pipeline.io_bind, Pipeline.io_lift.
  rewrite !row_get_Ok by done. reflexivity.
Qed.

(** The calls for the rows [xs]: one query per row, in their order. *)
Lemma io_map_locate df xs w :
  "country" ∈ Pipeline.columns df → "city" ∈ Pipeline.columns df →
  Pipeline.io_map (Pipeline.locate repr_coord geocode df) xs w =
  (Ok (Pipeline.cell_of_location <$> answers repr_coord geocode (Pipeline.queries w) xs),
   add_queries (query_of repr_coord <$> xs) w).
Proof.
  intros Hcountry Hcity. revert w. induction xs as [|x xs IH]; intros w.
  - simpl. by rewrite add_queries_nil.
  - cbn [Pipeline.io_map]. unfold Pipeline.io_bind at 1. rewrite locate_run by done.
    unfold Pipeline.io_bind at 1. rewrite IH. simpl. by rewrite add_queries_cons.
Qed.

Lemma answers_length log xs : length (answers repr_coord geocode log xs) = length xs.
Proof. revert log. induction xs as [|x xs IH]; intros log; simpl; [done | by rewrite IH]. Qed.

(** The answer for the row at position [k] is the geocoder's, after the
    queries for the rows before it. *)
Lemma answers_lookup log xs k x :
  xs !! k = Some x →
  answers repr_coord geocode log xs !! k =
  Some (geocode (log ++ (query_of repr_coord <$> take k xs)) (query_of repr_coord x)).
Proof.
  revert log k. induction xs as [|y xs IH]; intros log [|k]; simpl; try done.
  - intros [= ->]. by rewrite app_nil_r.
  - intros H. rewrite (IH _ _ H). by rewrite <- app_assoc.
Qed.

Lemma get_column_Ok df col :
  col ∈ Pipeline.columns df →
  Pipeline.get_column df col = Ok (at_column col <$> Pipeline.rows df).
Proof. intros H. unfold Pipeline.get_column. by rewrite bool_decide_eq_true_2. Qed.

(** On a selection with rows, [apply] calls the function once per row. *)
Lemma apply_locate_rows df xs :
  xs ≠ [] → "country" ∈ Pipeline.columns df →
  Pipeline.apply_locate repr_coord geocode df xs
  = Pipeline.io_map (Pipeline.locate repr_coord geocode df) xs.
Proof.
  intros Hxs Hcountry. unfold Pipeline.apply_locate.
  rewrite bool_decide_eq_false_2; [done|].
  intros [?|Hempty]; [done|]. rewrite Hempty in Hcountry. set_solver.
Qed.

Lemma at_column_set_ne (col col' : string) xs (vs : list (Pipeline.cell coord)) :
  col ≠ col' → length vs = length xs →
  at_column col' <$> zip_with (λ x v, <[col := v]> x) xs vs = at_column col' <$> xs.
Proof.
  intros Hne. revert vs. induction xs as [|x xs IH]; intros [|v vs] Hlen; simpl in *; try done.
  rewrite IH by lia. f_equal. unfold at_column. by rewrite lookup_insert_ne.
Qed.

(** The conversion of a column stops at the first cell that raises. *)
Lemma result_map_raises {A B} (f : A → result B) (l : list A) i a e :
  l !! i = Some a → f a = Raise e →
  ∃ e', result_map f l = Raise e' ∧
    ((∀ j b, (j < i)%nat → l !! j = Some b → is_Ok (f b)) → e' = e).
Proof.
  revert i. induction l as [|b l IH]; intros [|i] Hi He; simpl in *; try done.
  - injection Hi as ->. rewrite He. simpl. by exists e.
  - destruct (f b) as [b'|e0] eqn:Eb; simpl.
    + destruct (IH i Hi He) as (e' & -> & He'). simpl. exists e'. split; [done|].
      intros Hbefore. apply He'. intros j c Hj Hc. apply (Hbefore (S j)); [lia | done].
    + exists e0. split; [done|]. intros Hbefore.
      destruct (Hbefore 0%nat b) as [b' Hb']; [lia | done | congruence].
Qed.

Lemma elem_of_set_column_columns df col vs col' :
  col' ∈ Pipeline.columns df → col' ∈ Pipeline.columns (Pipeline.set_column df col vs).
Proof. simpl. set_solver. Qed.

(** C3, amended: when the capacity of some record of the batch is not a
    number, [transform_wikipedia_data] raises at the conversion of the
    capacity column, after the first location queries and before the
    pass over the duplicates: no record is emitted, and nothing else is
    done to the world.  The exception is the [ValueError] of that
    capacity unless the conversion of an earlier row has already failed. *)
Theorem transform_capacity_not_numeric
    (data : Pipeline.frame coord) (w : Pipeline.world coord) (i : nat)
    (x : gmap string (Pipeline.cell coord)) (s : str) :
  "country" ∈ Pipeline.columns data → "city" ∈ Pipeline.columns data →
  "images" ∈ Pipeline.columns data → "capacity" ∈ Pipeline.columns data →
  Pipeline.rows data !! i = Some x →
  x !! "capacity" = Some (Pipeline.Val (VStr s)) →
  int_of_str s = None →
  ∃ e w',
    Pipeline.transform_wikipedia_data repr_coord geocode int_of_str data w = (Raise e, w') ∧
    w' = add_queries (query_of repr_coord <$> Pipeline.rows data) w ∧
    ((∀ j y, (j < i)%nat → Pipeline.rows data !! j = Some y →
        is_Ok (Pipeline.to_int64 int_of_str (at_column "capacity" y))) →
     e = ValueError).
Proof.
  intros Hcountry Hcity Himages Hcapacity Hx Hs Hint.
  unfold Pipeline.transform_wikipedia_data.
  rewrite apply_locate_rows; [|by intros Hnil; rewrite Hnil in Hx|done].
  unfold Pipeline.io_bind at 1. rewrite io_map_locate by done.
  set (locations := Pipeline.cell_of_location <$> _).
  set (w1 := add_queries _ w).
  assert (length locations = length (Pipeline.rows data)) as Hlen.
  { unfold locations. by rewrite length_fmap, answers_length. }
  unfold Pipeline.io_bind at 1, Pipeline.io_lift at 1.
  rewrite get_column_Ok by (by apply elem_of_set_column_columns).
  unfold Pipeline.io_bind at 1, Pipeline.io_lift at 1.
  rewrite get_column_Ok by (by do 2 apply elem_of_set_column_columns).
  cbn [Pipeline.rows Pipeline.set_column].
  rewrite at_column_set_ne; [|done|].
  2:{ rewrite !length_fmap, length_zip_with. lia. }
  rewrite at_column_set_ne by done.
  destruct (result_map_raises (Pipeline.to_int64 int_of_str)
              (at_column "capacity" <$> Pipeline.rows data) i (at_column "capacity" x) ValueError)
    as (e & He & Hfirst).
  { by rewrite list_lookup_fmap, Hx. }
  { unfold at_column. rewrite Hs. simpl. by rewrite Hint. }
  unfold Pipeline.io_bind, Pipeline.io_lift. rewrite He.
  exists e, w1. split_and!; [done | done |].
  intros Hbefore. apply Hfirst. intros j b Hj Hb.
  rewrite list_lookup_fmap in Hb. destruct (Pipeline.rows data !! j) as [y|] eqn:Hy; [|done].
  injection Hb as <-. by eapply Hbefore.
Qed.

End TransformLemmas.

(** C3, as stated, fails: the second capacity of this batch is not a
    number, and the batch is aborted with [ValueError]; no record of it
    is returned. *)
Lemma transform_aborts_batch :
  ascii_int (py "TBA") = None ∧
  (Pipeline.transform_wikipedia_data repr_pair counting_geocoder ascii_int
     (Pipeline.DataFrame unknown_capacity_batch) empty_world).1 = Raise ValueError.
Proof. split; vm_compute; reflexivity. Qed.

(** The same on the batch with the capacity [TBA], which is the first
    that does not convert. *)
Lemma transform_capacity_not_numeric_witness :
  ∃ w',
    Pipeline.transform_wikipedia_data repr_pair counting_geocoder ascii_int
      (Pipeline.DataFrame unknown_capacity_batch) empty_world = (Raise ValueError, w') ∧
    length (Pipeline.queries w') = 3%nat ∧ Pipeline.files w' = ∅.
Proof.
  destruct (transform_capacity_not_numeric repr_pair counting_geocoder ascii_int
              (Pipeline.DataFrame unknown_capacity_batch) empty_world 1
              (Pipeline.Val <$> stadium_record 2 "Nou Mestalla" "TBA" "Spain" "Valencia")
              (py "TBA"))
    as (e & w' & Hrun & Hw' & He).
  - apply (bool_decide_unpack _). by vm_compute.
  - apply (bool_decide_unpack _). by vm_compute.
  - apply (bool_decide_unpack _). by vm_compute.
  - apply (bool_decide_unpack _). by vm_compute.
  - reflexivity.
  - by vm_compute.
  - by vm_compute.
  - exists w'. rewrite He in Hrun.
    + split; [done|]. rewrite Hw'. split; reflexivity.
    + intros [|j] y Hj; [|lia]. intros [= <-]. eexists. vm_compute. reflexivity.
Defined.

(* ===================================================================== *)
(** * The pass over the duplicated locations *)
(* ===================================================================== *)

Section Duplicates.

Context {coord : Type} `{!EqDecision coord}.
Variable repr_coord : coord → str.
Variable geocode : list str → str → option coord.

Implicit Types (df : Pipeline.frame coord) (w : Pipeline.world coord).
Implicit Types (x y : gmap string (Pipeline.cell coord)).
Implicit Types (v : Pipeline.cell coord) (i j k : nat).

(** [duplicated] flags a value that was seen before. *)
Lemma duplicated_from_spec (seen vs : list (Pipeline.cell coord)) i :
  Pipeline.duplicated_from seen vs !! i = Some true ↔
  ∃ v, vs !! i = Some v ∧ (v ∈ seen ∨ ∃ j, (j < i)%nat ∧ vs !! j = Some v).
Proof.
  revert seen i. induction vs as [|v0 vs IH]; intros seen i; simpl.
  - rewrite lookup_nil. split; [done | by intros (v & Hv & _)].
  - destruct i as [|i]; simpl.
    + split.
      * intros [= H]. apply bool_decide_eq_true in H. eauto.
      * intros (v & [= <-] & [H|(j & Hj & _)]); [|lia].
        by rewrite bool_decide_eq_true_2.
    + rewrite IH. split.
      * intros (v & Hv & [Hin|(j & Hj & Hjv)]); exists v; (split; [done|]).
        -- apply elem_of_cons in Hin as [->|Hin]; [|by left].
           right. exists 0%nat. split; [lia | done].
        -- right. exists (S j). split; [lia | done].
      * intros (v & Hv & [Hin|(j & Hj & Hjv)]); exists v; (split; [done|]).
        -- left. by apply elem_of_cons; right.
        -- destruct j as [|j]; simpl in Hjv.
           ++ injection Hjv as ->. left. by apply elem_of_cons; left.
           ++ right. exists j. split; [lia | done].
Qed.

Lemma select_spec df (mask : list bool) i x :
  (i, x) ∈ Pipeline.select df mask ↔
  Pipeline.rows df !! i = Some x ∧ mask !! i = Some true.
Proof.
  unfold Pipeline.select. rewrite list_elem_of_filter, elem_of_lookup_imap. simpl.
  split.
  - intros (Hmask & j & y & [= -> ->] & Hy). done.
  - intros (Hx & Hmask). split; [done|]. by exists i, x.
Qed.

Lemma select_NoDup df (mask : list bool) : NoDup (Pipeline.select df mask).*1.
Proof.
  unfold Pipeline.select.
  eapply sublist_NoDup; [|apply fmap_sublist, sublist_filter].
  rewrite fmap_imap.
  rewrite (imap_ext _ (λ i _, i)) by done.
  rewrite (imap_seq_0 _ (λ i, i)). rewrite list_fmap_id. apply NoDup_seq.
Qed.

(** The rows that are queried again are those after the first of their
    location. *)
Lemma duplicates_of_spec df i x :
  (i, x) ∈ duplicates_of df ↔
  Pipeline.rows df !! i = Some x ∧
  ∃ j y, (j < i)%nat ∧ Pipeline.rows df !! j = Some y ∧ same_location y x.
Proof.
  unfold duplicates_of. rewrite select_spec, duplicated_from_spec.
  setoid_rewrite elem_of_nil. setoid_rewrite list_lookup_fmap.
  setoid_rewrite list_lookup_fmap. unfold same_location. split.
  - intros (Hx & v & Hv & [[]|(j & Hj & Hjv)]). split; [done|].
    rewrite Hx in Hv. simpl in Hv. injection Hv as <-.
    destruct (Pipeline.rows df !! j) as [y|] eqn:Hy; [|done].
    simpl in Hjv. injection Hjv as Hjv. by exists j, y.
  - intros (Hx & j & y & Hj & Hy & Hsame). split; [done|].
    eexists. rewrite Hx. split; [done|]. right. exists j. split; [done|].
    rewrite Hy. simpl. by rewrite Hsame.
Qed.

(** [update] with the new location of a row: a missing result leaves the
    row as it is. *)
Lemma update_row_location x (l : option coord) :
  Pipeline.update_row x (<["location" := Pipeline.cell_of_location l]> x) =
  match l with
  | Some c => <["location" := Pipeline.Tuple c]> x
  | None => x
  end.
Proof.
  unfold Pipeline.update_row. apply map_eq. intros key.
  rewrite lookup_union, map_lookup_filter.
  destruct l as [c|]; simpl.
  - destruct (decide (key = "location")) as [->|Hne].
    + rewrite !lookup_insert_eq. simpl. by destruct (x !! "location").
    + rewrite !lookup_insert_ne by done.
      destruct (x !! key) as [v|]; simpl; [|done]. by destruct v.
  - destruct (decide (key = "location")) as [->|Hne].
    + rewrite lookup_insert_eq. simpl. by destruct (x !! "location").
    + rewrite lookup_insert_ne by done.
      destruct (x !! key) as [v|]; simpl; [|done]. by destruct v.
Qed.

Lemma fst_zip_with_relabel {A B} (g : nat * A → B → A)
    (sel : list (nat * A)) (ls : list B) :
  length ls = length sel →
  (zip_with (λ p l, (p.1, g p l)) sel ls).*1 = sel.*1.
Proof.
  revert ls. induction sel as [|p sel IH]; intros [|l ls] Hlen; simpl in *; try done.
  by rewrite IH by lia.
Qed.

(** C4, amended: the pass of lines 160-163 queries again the rows whose
    location equals that of an earlier row, all members of a group but
    its first, each once and in the order of the rows; the new
    coordinate replaces the location of the row, a missing result leaves
    it; every other row is left as it is. *)
Theorem requery_duplicates_spec
    (df : Pipeline.frame coord) (w : Pipeline.world coord) :
  "country" ∈ Pipeline.columns df → "city" ∈ Pipeline.columns df →
  "location" ∈ Pipeline.columns df →
  duplicates_of df ≠ [] →
  ∃ df' w',
    Pipeline.requery_duplicates repr_coord geocode df w = (Ok df', w') ∧
    (∀ i x, (i, x) ∈ duplicates_of df ↔
       Pipeline.rows df !! i = Some x ∧
       ∃ j y, (j < i)%nat ∧ Pipeline.rows df !! j = Some y ∧ same_location y x) ∧
    NoDup (duplicates_of df).*1 ∧
    w' = add_queries (query_of repr_coord <$> (duplicates_of df).*2) w ∧
    length (Pipeline.rows df') = length (Pipeline.rows df) ∧
    (∀ i x, Pipeline.rows df !! i = Some x → i ∉ (duplicates_of df).*1 →
       Pipeline.rows df' !! i = Some x) ∧
    (∀ k i x, duplicates_of df !! k = Some (i, x) →
       Pipeline.rows df' !! i =
       Some match geocode
                    (Pipeline.queries w
                     ++ (query_of repr_coord <$> take k (duplicates_of df).*2))
                    (query_of repr_coord x) with
            | Some c => <["location" := Pipeline.Tuple c]> x
            | None => x
            end).
Proof.
  intros Hcountry Hcity Hlocation Hdup.
  unfold Pipeline.requery_duplicates, Pipeline.duplicated.
  rewrite get_column_Ok by done. simpl.
  unfold Pipeline.io_bind at 1, Pipeline.io_lift at 1.
  fold (duplicates_of df). set (sel := duplicates_of df) in *.
  rewrite (apply_locate_rows repr_coord geocode); [|by destruct sel|done].
  unfold Pipeline.io_bind, Pipeline.io_ret. rewrite io_map_locate by done.
  set (ls := Pipeline.cell_of_location <$> _).
  assert (length ls = length sel) as Hlen.
  { unfold ls. by rewrite length_fmap, answers_length, length_fmap. }
  eexists _, _. split; [reflexivity|].
  split; [apply duplicates_of_spec|].
  split; [apply select_NoDup|].
  split; [done|].
  cbn [Pipeline.rows Pipeline.update].
  split; [by rewrite length_imap|].
  split.
  - intros i x Hx Hi. rewrite list_lookup_imap, Hx. simpl.
    rewrite not_elem_of_list_to_map_1; [done|].
    by rewrite fst_zip_with_relabel.
  - intros k i x Hk.
    assert (Pipeline.rows df !! i = Some x) as Hx.
    { apply list_elem_of_lookup_2 in Hk. by apply duplicates_of_spec in Hk as [? _]. }
    assert (sel.*2 !! k = Some x) as Hk2.
    { by rewrite list_lookup_fmap, Hk. }
    pose proof (answers_lookup repr_coord geocode (Pipeline.queries w) _ _ _ Hk2) as Hans.
    rewrite list_lookup_imap, Hx. simpl. f_equal.
    erewrite elem_of_list_to_map_1; [apply update_row_location| |].
    + rewrite fst_zip_with_relabel by done. apply select_NoDup.
    + eapply list_elem_of_lookup_2 with (i := k).
      apply lookup_zip_with_Some. eexists (i, x), _. split_and!; [done | done |].
      unfold ls. by rewrite list_lookup_fmap, Hans.
Qed.

End Duplicates.

(** A result of a computation on the world, when it returned. *)
Lemma io_returned {A coord} (r : result A * Pipeline.world coord)
    (P : A → Pipeline.world coord → Prop) :
  match r with (Ok a, w') => P a w' | _ => False end →
  ∃ a w', r = (Ok a, w') ∧ P a w'.
Proof. destruct r as [[a|e] w']; [|done]. intros H. by exists a, w'. Qed.

(** C4, as stated, fails: the geocoder answers the first queries for the
    two stadiums of Madrid with one coordinate; the pass then queries
    again for the second stadium only, three queries in all, and the
    first stadium keeps its coordinate. *)
Lemma first_of_group_not_requeried :
  answers repr_pair counting_geocoder []
    (Pipeline.rows (Pipeline.DataFrame madrid_batch)) = [Some (0, 0); Some (0, 0)] ∧
  ∃ df w',
    Pipeline.transform_wikipedia_data repr_pair counting_geocoder ascii_int
      (Pipeline.DataFrame madrid_batch) empty_world = (Ok df, w') ∧
    length (Pipeline.queries w') = 3%nat ∧
    at_column "location" <$> Pipeline.rows df
    = [Pipeline.Tuple (0, 0); Pipeline.Tuple (2, 0)].
Proof. split; [by vm_compute|]. apply io_returned. by vm_compute. Qed.

(** The same on the two stadiums of Madrid: the second is queried again,
    the first is left as it is. *)
Lemma requery_duplicates_spec_witness :
  ∃ x1 df' w',
    duplicates_of madrid_located = [(1%nat, x1)] ∧
    Pipeline.requery_duplicates repr_pair counting_geocoder madrid_located empty_world
    = (Ok df', w') ∧
    length (Pipeline.queries w') = 1%nat ∧
    Pipeline.rows df' !! 0%nat = Pipeline.rows madrid_located !! 0%nat ∧
    Pipeline.rows df' !! 1%nat = Some (<["location" := Pipeline.Tuple (0, 0)]> x1).
Proof.
  destruct (Pipeline.rows madrid_located !! 1%nat) as [x1|] eqn:Hx1;
    [|vm_compute in Hx1; discriminate].
  assert (duplicates_of madrid_located = [(1%nat, x1)]) as Hdup.
  { unfold duplicates_of, Pipeline.select.
    destruct (Pipeline.rows madrid_located) as [|x0 [|x1' [|]]] eqn:Hrows;
      try (vm_compute in Hrows; discriminate).
    simpl in Hx1. injection Hx1 as ->.
    assert (at_column "location" x0 = Pipeline.Tuple (0, 0)
            ∧ at_column "location" x1 = Pipeline.Tuple (0, 0)) as [H0 H1].
    { vm_compute in Hrows. injection Hrows as <- <-. split; reflexivity. }
    simpl. rewrite H0, H1. reflexivity. }
  destruct (requery_duplicates_spec repr_pair counting_geocoder madrid_located empty_world)
    as (df' & w' & Hrun & _ & _ & Hw' & _ & Hkeep & Hnew).
  - apply (bool_decide_unpack _). by vm_compute.
  - apply (bool_decide_unpack _). by vm_compute.
  - apply (bool_decide_unpack _). by vm_compute.
  - by rewrite Hdup.
  - exists x1, df', w'. split; [done|]. split; [done|].
    rewrite Hdup in *. split; [by rewrite Hw'|]. split.
    + destruct (Pipeline.rows madrid_located !! 0%nat) as [x0|] eqn:Hx0;
        [|vm_compute in Hx0; discriminate].
      apply Hkeep; [done|]. simpl. by intros ?%list_elem_of_singleton.
    + by rewrite (Hnew 0%nat 1%nat x1 eq_refl).
Defined.

(* ===================================================================== *)
(** * The flow *)
(* ===================================================================== *)

Section Flow.

Context {coord : Type} `{!EqDecision coord}.
Variable repr_coord : coord → str.
Variable geocode : list str → str → option coord.
Variable int_of_str : str → option Z.
Variable BeautifulSoup : str → node.



End Flow.



(* ===================================================================== *)
(** * Further properties: the text normalizers *)
(* ===================================================================== *)

Section Normalizers.

Implicit Types (s t text old : list N) (c : N).

Lemma lstrip_suffix s : lstrip s `suffix_of` s.
Proof.
  induction s as [|c s IH]; simpl; [done|].
  destruct (isspace c); [by apply suffix_cons_r | done].
Qed.

(** What [lstrip] returns does not start with white space. *)
Lemma lstrip_head s : lstrip (lstrip s) = lstrip s.
Proof.
  induction s as [|c s IH]; simpl; [done|].
  destruct (isspace c) eqn:E; [done|]. simpl. by rewrite E.
Qed.

Lemma lstrip_snoc s c : isspace c = false → lstrip (s ++ [c]) = lstrip s ++ [c].
Proof.
  intros Hc. induction s as [|b s IH]; simpl; [by rewrite Hc|].
  by destruct (isspace b).
Qed.

Lemma lstrip_fixed s :
  lstrip s = s ↔ match s with [] => True | c :: _ => isspace c = false end.
Proof.
  destruct s as [|c s]; simpl; [done|].
  destruct (isspace c) eqn:E; [|done]. split; [|done].
  intros H. pose proof (lstrip_suffix s) as Hsuf. rewrite H in Hsuf.
  apply suffix_length in Hsuf. simpl in Hsuf. lia.
Qed.

Lemma rstrip_cons c s : isspace c = false → rstrip (c :: s) = c :: rstrip s.
Proof.
  intros Hc. unfold rstrip. simpl. rewrite lstrip_snoc by done.
  by rewrite rev_unit.
Qed.

Lemma rstrip_prefix s : rstrip s `prefix_of` s.
Proof.
  unfold rstrip. destruct (lstrip_suffix (rev s)) as [k Hk].
  exists (rev k). rewrite <- (rev_involutive s) at 1. rewrite Hk at 1.
  by rewrite rev_app_distr.
Qed.

Lemma rstrip_rstrip s : rstrip (rstrip s) = rstrip s.
Proof. unfold rstrip. by rewrite rev_involutive, lstrip_head. Qed.

Lemma prefix_is_sublist (p l : list N) : p `prefix_of` l → p `sublist_of` l.
Proof. intros [k ->]. by apply sublist_inserts_r. Qed.

Lemma suffix_is_sublist (p l : list N) : p `suffix_of` l → p `sublist_of` l.
Proof. intros [k ->]. by apply sublist_inserts_l. Qed.

Lemma str_strip_sublist s : str_strip s `sublist_of` s.
Proof.
  unfold str_strip. etrans.
  - apply prefix_is_sublist, rstrip_prefix.
  - apply suffix_is_sublist, lstrip_suffix.
Qed.

(** A stripped text has no white space at either end. *)
Lemma str_strip_fixed s : str_strip s = s → lstrip s = s ∧ rstrip s = s.
Proof.
  unfold str_strip. intros Hs.
  assert (lstrip s = s) as Hls.
  { apply suffix_length_eq; [apply lstrip_suffix|].
    rewrite <- Hs at 1. apply prefix_length, rstrip_prefix. }
  split; [done|]. by rewrite Hls in Hs.
Qed.

(** [strip] twice is [strip] once. *)
Lemma str_strip_idemp s : str_strip (str_strip s) = str_strip s.
Proof.
  unfold str_strip.
  assert (lstrip (rstrip (lstrip s)) = rstrip (lstrip s)) as ->; [|apply rstrip_rstrip].
  pose proof (lstrip_head s) as H. destruct (lstrip s) as [|c u]; [done|].
  apply lstrip_fixed in H. rewrite rstrip_cons by done. by apply lstrip_fixed.
Qed.

(** Deleting one character is a filter. *)
Lemma replace_go_filter c s : replace_go [c] [] 0 s = filter (λ b, b ≠ c) s.
Proof.
  induction s as [|b s IH]; [done|]. simpl. rewrite andb_true_r.
  destruct (N.eqb_spec c b) as [->|Hne]; simpl.
  - by rewrite filter_cons_False by (intros H; by apply H).
  - rewrite filter_cons_True by congruence. by rewrite IH.
Qed.

Lemma filter_rev (P : N → Prop) `{!∀ x, Decision (P x)} (l : list N) :
  filter P (rev l) = rev (filter P l).
Proof.
  induction l as [|a l IH]; [done|]. simpl. rewrite filter_app, IH.
  destruct (decide (P a)).
  - rewrite !filter_cons_True by done. by rewrite filter_nil.
  - rewrite !filter_cons_False by done. by rewrite filter_nil, app_nil_r.
Qed.

(** Deleting white space characters from a stripped text leaves it
    stripped. *)
Lemma str_strip_filter c s :
  isspace c = true → str_strip s = s →
  str_strip (filter (λ b, b ≠ c) s) = filter (λ b, b ≠ c) s.
Proof.
  intros Hc Hs.
  assert (∀ u, lstrip u = u → lstrip (filter (λ b, b ≠ c) u) = filter (λ b, b ≠ c) u) as Hl.
  { intros u Hu. apply lstrip_fixed in Hu. apply lstrip_fixed.
    destruct u as [|b u]; [done|].
    rewrite filter_cons_True; [done|]. intros ->. congruence. }
  destruct (str_strip_fixed s Hs) as [Hls Hrs].
  unfold str_strip. rewrite (Hl s Hls). unfold rstrip.
  rewrite <- (rev_involutive (filter _ s)) at 2. f_equal.
  rewrite <- filter_rev. apply Hl.
  unfold rstrip in Hrs. rewrite <- Hrs at 2. by rewrite rev_involutive.
Qed.

Lemma replace_go_no_occurrence old new s :
  old ≠ [] → index_of old s = None → replace_go old new 0 s = s.
Proof.
  intros Hold. induction s as [|c s IH]; [done|]. simpl.
  destruct (startswith old (c :: s)); [done|].
  destruct (index_of old s); [done|]. intros _. by rewrite IH.
Qed.

Lemma contains_false sub s : contains sub s = false ↔ index_of sub s = None.
Proof. unfold contains. by destruct (index_of sub s). Qed.

(** X1: [clean_text] only deletes characters: what it returns is the
    text with some of its characters left out, in the same order. *)
Theorem clean_text_only_deletes (text : str) :
  ∃ out : str, Pipeline.clean_text text = Ok out ∧ out `sublist_of` text.
Proof.
  eexists. split; [apply clean_text_cut|].
  etrans; [by apply str_replace_sublist|].
  etrans; [apply sublist_take|].
  etrans; [by apply str_replace_sublist|].
  apply str_strip_sublist.
Qed.

(** X2: on a text that, once stripped, holds none of ['&nbsp'], [' ♦'],
    ['['], [' (formerly)'] and no newline, [clean_text] is [strip], and
    the two normalizers of the repository agree. *)
Theorem clean_text_plain (text : str) :
  let s := str_strip text in
  contains NBSP s = false → contains DIAMOND s = false →
  contains LBRACKET s = false → contains FORMERLY s = false →
  contains NEWLINE s = false →
  Pipeline.clean_text text = Ok s ∧ FindTable.clean_text text = s.
Proof.
  intros s Hnbsp Hdiamond Hbracket Hformerly Hnewline.
  apply contains_false in Hnbsp, Hdiamond, Hbracket, Hformerly, Hnewline.
  assert (str_replace s NBSP [] = s) as Ht by (by apply replace_go_no_occurrence).
  assert (str_replace s NEWLINE [] = s) as Hnl by (by apply replace_go_no_occurrence).
  split; [|exact Hnl].
  rewrite clean_text_cut. fold s. rewrite Ht.
  assert (code_cut s = length s) as ->.
  { unfold code_cut, diamond_cut, cut_at.
    rewrite Hdiamond, Hbracket, Hformerly. simpl. lia. }
  by rewrite take_ge, Hnl.
Qed.

(** The same on the name of a stadium between white space. *)
Lemma clean_text_plain_witness :
  let text : str := py "  Santiago Bernabeu " ++ NEWLINE in
  Pipeline.clean_text text = Ok (py "Santiago Bernabeu") ∧
  FindTable.clean_text text = py "Santiago Bernabeu".
Proof.
  intros text.
  change (py "Santiago Bernabeu") with (str_strip text).
  apply (clean_text_plain text); reflexivity.
Defined.

(** What [clean_text] of [findtable.py] returns is stripped and holds no
    newline. *)
Lemma findtable_clean_text_fixed text :
  str_strip (FindTable.clean_text text) = FindTable.clean_text text ∧
  10%N ∉ FindTable.clean_text text.
Proof.
  unfold FindTable.clean_text.
  assert (∀ u, str_replace u NEWLINE [] = replace_go [10%N] [] 0 u) as E by done.
  rewrite !E. split; [|apply replace_go_removed].
  rewrite replace_go_filter. apply str_strip_filter; [done | apply str_strip_idemp].
Qed.

(** X3: [clean_text] of [findtable.py] returns a text without newline and
    without white space at its ends, and leaves such a text as it is:
    applying it twice is applying it once. *)
Theorem findtable_clean_text_idempotent (text : str) :
  let out := FindTable.clean_text text in
  (10%N ∉ out) ∧ str_strip out = out ∧ FindTable.clean_text out = out.
Proof.
  intros out. destruct (findtable_clean_text_fixed text) as [Hstrip Hnewline].
  split_and!; [done | done |].
  fold out in Hstrip, Hnewline.
  unfold FindTable.clean_text. rewrite Hstrip.
  by apply replace_go_absent.
Qed.

End Normalizers.

(* ===================================================================== *)
(** * Further properties: the records *)
(* ===================================================================== *)

Section Records.

Implicit Types (rows tds : list node) (data : list (gmap string value)).
Implicit Types (values : gmap string value) (i : nat).

Ltac bind_inv H :=
  repeat match type of H with
    | rbind ?m _ = Ok _ =>
        let E := fresh "E" in destruct m eqn:E; simpl in H; [|discriminate H]
    end.

(** A loop whose body appends one entry per turn. *)
Lemma for_each_entries {A}
    (body : A → list (gmap string value) → result (list (gmap string value)))
    (P : A → gmap string value → Prop) :
  (∀ a data data', body a data = Ok data' → ∃ values, data' = data ++ [values] ∧ P a values) →
  ∀ xs data data', for_each xs body data = Ok data' →
    ∃ new, data' = data ++ new ∧ Forall2 P xs new.
Proof.
  intros Hbody. induction xs as [|a xs IH]; intros data data'; simpl.
  - intros [= <-]. exists []. by rewrite app_nil_r.
  - destruct (body a data) as [data1|] eqn:E; [|done]. simpl. intros H.
    apply Hbody in E as (values & -> & Hvalues).
    apply IH in H as (new & -> & Hnew).
    exists (values :: new). rewrite <- app_assoc. split; [done | by constructor].
Qed.

(** What one turn of the loop of [extract_wikipedia_data] appends, with
    its fields. *)
Lemma extract_row_fields rows i data data' :
  Pipeline.extract_row rows i data = Ok data' →
  ∃ values, data' = data ++ [values] ∧
    ∃ row, rows !! i = Some row ∧
      if bool_decide (3 ≤ length (find_all TD row))%nat
      then built_from (find_all TD row) i values
      else values = ∅.
Proof.
  unfold Pipeline.extract_row. intros H.
  destruct (getitem rows i) as [row|] eqn:Hrow; [|done]. simpl in H.
  apply getitem_Some in Hrow.
  case_bool_decide as Hlen.
  - bind_inv H. rename E into Hvalues. bind_inv Hvalues.
    injection Hvalues as <-. injection H as <-.
    eexists. split; [done|]. exists row. split; [done|].
    rewrite bool_decide_eq_true_2 by done.
    unfold built_from. by eexists _, _, _, _, _, _, _.
  - simpl in H. injection H as <-. exists ∅. split; [done|]. exists row.
    by rewrite bool_decide_eq_false_2.
Qed.

(** Every entry of the data is empty or built from the cells of a row. *)
Lemma extract_entries soup data values :
  Pipeline.extract_wikipedia_data_soup soup = Ok (Some data) →
  values ∈ data →
  values = ∅ ∨ ∃ tds i, built_from tds i values.
Proof.
  unfold Pipeline.extract_wikipedia_data_soup.
  destruct (find_all_class TABLE Pipeline.TABLE_CLASSES soup) as [|table ts]; [done|].
  destruct (for_each _ _ _) as [data'|] eqn:E; [|done]. simpl. intros [= <-] Hin.
  eapply (for_each_entries _ (λ i values, values = ∅ ∨ ∃ tds i, built_from tds i values))
    in E as (new & -> & Hnew).
  - simpl in Hin. apply list_elem_of_lookup in Hin as [k Hk].
    destruct (Forall2_lookup_r _ _ _ _ _ Hnew Hk) as (i & _ & Hi). exact Hi.
  - intros i d d' Hbody.
    apply extract_row_fields in Hbody as (v & -> & row & _ & Hv).
    exists v. split; [done|]. case_bool_decide; [right; eauto | by left].
Qed.

(** The text that [clean_text] returns holds no ['['] and no newline. *)
Lemma clean_text_free text out :
  Pipeline.clean_text text = Ok out → (91%N ∉ out) ∧ (10%N ∉ out).
Proof.
  rewrite clean_text_cut. intros [= <-]. split.
  - set (t := str_replace (str_strip text) NBSP []).
    assert (contains LBRACKET (take (code_cut t) t) = false) as Hb.
    { apply contains_take_cut_at; [unfold code_cut; lia | done]. }
    apply contains_single in Hb. intros Hin. apply Hb.
    eapply elem_of_sublist; [exact Hin|]. apply replace_go_sublist.
  - apply replace_go_removed.
Qed.

Lemma clean_cell_free tds k out :
  Pipeline.clean_cell tds k = Ok out → (91%N ∉ out) ∧ (10%N ∉ out).
Proof.
  unfold Pipeline.clean_cell. destruct (getitem tds k); [|done]. simpl.
  apply clean_text_free.
Qed.

Lemma clean_cell_or_empty_free tds k out :
  Pipeline.clean_cell_or_empty tds k = Ok out → (91%N ∉ out) ∧ (10%N ∉ out).
Proof.
  unfold Pipeline.clean_cell_or_empty. case_bool_decide; [apply clean_cell_free|].
  intros [= <-]. split; apply not_elem_of_nil.
Qed.

(** X4: every entry of the data of [extract_wikipedia_data] is the empty
    dict or a record with exactly the eight keys, an integer rank and
    strings elsewhere. *)
Theorem record_keys (soup : node) (data : list (gmap string value))
    (values : gmap string value) :
  Pipeline.extract_wikipedia_data_soup soup = Ok (Some data) →
  values ∈ data →
  values = ∅ ∨
  (dom values = RECORD_KEYS ∧
   (∃ z, values !! "rank" = Some (VInt z)) ∧
   ∀ key, key ∈ RECORD_KEYS → key ≠ "rank" → ∃ s, values !! key = Some (VStr s)).
Proof.
  intros Hdata Hin.
  destruct (extract_entries soup data values Hdata Hin) as [->|(tds & i & Hbuilt)];
    [by left | right].
  destruct Hbuilt as (s1 & s2 & s3 & s4 & s5 & s6 & s7 & _ & _ & _ & _ & _ & _ & _ & ->).
  split_and!.
  - rewrite !dom_insert_L, dom_empty_L. unfold RECORD_KEYS. set_solver.
  - eexists. by simplify_map_eq.
  - intros key Hkey Hrank. unfold RECORD_KEYS in Hkey.
    repeat (apply elem_of_union in Hkey as [Hkey|Hkey]);
      apply elem_of_singleton in Hkey as ->; try done;
      eexists; by simplify_map_eq.
Qed.

(** X5: the text fields of a record hold no ['['] and no newline, and its
    capacity no comma and no period either. *)
Theorem record_fields_clean (soup : node) (data : list (gmap string value))
    (values : gmap string value) (key : string) (s : str) :
  Pipeline.extract_wikipedia_data_soup soup = Ok (Some data) →
  values ∈ data →
  key ≠ "images" →
  values !! key = Some (VStr s) →
  (91%N ∉ s) ∧ (10%N ∉ s) ∧ (key = "capacity" → (44%N ∉ s) ∧ (46%N ∉ s)).
Proof.
  intros Hdata Hin Himages Hkey.
  destruct (extract_entries soup data values Hdata Hin) as [->|(tds & i & Hbuilt)]; [done|].
  destruct Hbuilt as (s1 & s2 & s3 & s4 & s5 & s6 & s7
                      & H1 & H2 & H3 & H4 & H5 & _ & H7 & ->).
  apply clean_cell_free in H1, H2.
  apply clean_cell_or_empty_free in H3, H4, H5, H7.
  assert (∀ c, c ∈ str_replace (str_replace s2 COMMA []) PERIOD [] →
               c ∈ s2 ∧ c ≠ 44%N ∧ c ≠ 46%N) as Hcap.
  { intros c. change (str_replace (str_replace s2 COMMA []) PERIOD [])
      with (replace_go [46%N] [] 0 (replace_go [44%N] [] 0 s2)).
    rewrite !replace_go_filter, !list_elem_of_filter. tauto. }
  destruct (decide (key = "capacity")) as [->|Hne].
  - simplify_map_eq. split_and!.
    + intros Hc. apply Hcap in Hc. tauto.
    + intros Hc. apply Hcap in Hc. tauto.
    + intros _. split; intros Hc; apply Hcap in Hc; tauto.
  - assert ((91%N ∉ s) ∧ (10%N ∉ s)) as [? ?]; [|done].
    repeat (rewrite lookup_insert in Hkey; case_decide; simplify_eq; try done).
Qed.

(** X6: the [images] field of a record starts with [https://]. *)
Theorem record_image_https (soup : node) (data : list (gmap string value))
    (values : gmap string value) (s : str) :
  Pipeline.extract_wikipedia_data_soup soup = Ok (Some data) →
  values ∈ data →
  values !! "images" = Some (VStr s) →
  startswith HTTPS s = true.
Proof.
  intros Hdata Hin Hkey.
  destruct (extract_entries soup data values Hdata Hin) as [->|(tds & i & Hbuilt)]; [done|].
  destruct Hbuilt as (s1 & s2 & s3 & s4 & s5 & s6 & s7
                      & _ & _ & _ & _ & _ & Himage & _ & ->).
  simplify_map_eq.
  unfold Pipeline.image_url in Himage.
  destruct (getitem tds 5) as [td|]; [|done]. simpl in Himage.
  destruct (find IMG td) as [img|]; [|by injection Himage as <-].
  destruct (get SRC img) as [[src|]|]; try done.
  bind_inv Himage. injection Himage as <-. reflexivity.
Qed.

End Records.

(* ===================================================================== *)
(** * Further properties: the records of [findtable.py] *)
(* ===================================================================== *)

Section FindTableRecords.

Implicit Types (rows tds : list node) (data : list (gmap string value)).
Implicit Types (values : gmap string value) (i : nat).

Lemma findtable_extract_row_fields rows i data data' :
  FindTable.extract_row rows i data = Ok data' →
  ∃ values, data' = data ++ [values] ∧
    (values = ∅ ∨ ∃ tds, findtable_built_from tds i values).
Proof.
  unfold FindTable.extract_row. intros H.
  destruct (getitem rows i) as [row|]; [|done]. simpl in H.
  case_bool_decide as Hlen; [|injection H as <-; exists ∅; by split; [|left]].
  set (tds := find_all TD row) in *.
  destruct (lookup_lt_is_Some_2 tds 0) as [td0 H0]; [lia|].
  destruct (lookup_lt_is_Some_2 tds 1) as [td1 H1]; [lia|].
  destruct (lookup_lt_is_Some_2 tds 2) as [td2 H2]; [lia|].
  revert H. unfold FindTable.clean_cell, getitem. rewrite H0, H1. simpl.
  rewrite bool_decide_eq_true_2 by lia. rewrite H2. simpl.
  intros [= <-]. eexists. split; [done|]. right. exists tds.
  by exists td0, td1, td2.
Qed.

(** X7: every entry of the data of [get_wikipedia_data] in
    [findtable.py] is the empty dict or a record with exactly the keys
    [rank], [stadium], [capacity] and [region]; its stadium and region
    are stripped and hold no newline, its capacity holds no newline, no
    comma and no period. *)
Theorem findtable_record (soup : node) (data : list (gmap string value))
    (values : gmap string value) :
  FindTable.get_wikipedia_data_soup soup = Ok (Some data) →
  values ∈ data →
  values = ∅ ∨
  (dom values = FINDTABLE_KEYS ∧
   (∃ z, values !! "rank" = Some (VInt z)) ∧
   (∀ key, key = "stadium" ∨ key = "region" →
      ∃ s, values !! key = Some (VStr s) ∧ str_strip s = s ∧ 10%N ∉ s) ∧
   (∃ s, values !! "capacity" = Some (VStr s) ∧
         (10%N ∉ s) ∧ (44%N ∉ s) ∧ (46%N ∉ s))).
Proof.
  unfold FindTable.get_wikipedia_data_soup.
  destruct (FindTable.locate_table soup) as [table|]; [|done].
  destruct (for_each _ _ _) as [data'|] eqn:E; [|done]. simpl. intros [= <-] Hin.
  eapply (for_each_entries _ (λ i values, values = ∅ ∨ ∃ tds, findtable_built_from tds i values))
    in E as (new & -> & Hnew); [|intros i d d'; apply findtable_extract_row_fields].
  simpl in Hin. apply list_elem_of_lookup in Hin as [k Hk].
  destruct (Forall2_lookup_r _ _ _ _ _ Hnew Hk) as (i & _ & [-> | (tds & Hbuilt)]);
    [by left | right].
  destruct Hbuilt as (td0 & td1 & td2 & _ & _ & _ & ->).
  pose proof (findtable_clean_text_fixed (text td0)) as (Hs0 & Hn0).
  pose proof (findtable_clean_text_fixed (text td2)) as (Hs2 & Hn2).
  pose proof (findtable_clean_text_fixed (text td1)) as (_ & Hn1).
  split_and!.
  - rewrite !dom_insert_L, dom_empty_L. unfold FINDTABLE_KEYS. set_solver.
  - eexists. by simplify_map_eq.
  - intros key [-> | ->]; eexists; (split; [by simplify_map_eq|]); done.
  - set (s := FindTable.clean_text (text td1)) in *.
    assert (∀ c, c ∈ str_replace (str_replace s COMMA []) PERIOD [] →
                 c ∈ s ∧ c ≠ 44%N ∧ c ≠ 46%N) as Hcap.
    { intros c. change (str_replace (str_replace s COMMA []) PERIOD [])
        with (replace_go [46%N] [] 0 (replace_go [44%N] [] 0 s)).
      rewrite !replace_go_filter, !list_elem_of_filter. tauto. }
    eexists. split; [by simplify_map_eq|].
    split_and!; intros Hc; apply Hcap in Hc; tauto.
Qed.

End FindTableRecords.

(* ===================================================================== *)
(** * Further properties: locating the table and reading its rows *)
(* ===================================================================== *)

Section Tables.

Implicit Types (rows tds : list node) (data : list (gmap string value)).
Implicit Types (soup table row : node) (i : nat).

(** The first element that a filter keeps. *)
Lemma head_filter_Some {A} (P : A → Prop) `{!∀ x, Decision (P x)} (l : list A) x :
  head (filter P l) = Some x →
  ∃ l1 l2, l = l1 ++ x :: l2 ∧ P x ∧ Forall (λ y, ¬ P y) l1.
Proof.
  induction l as [|a l IH]; [done|].
  destruct (decide (P a)) as [Ha|Ha].
  - rewrite filter_cons_True by done. intros [= ->]. by exists [], l.
  - rewrite filter_cons_False by done. intros Hhead.
    destruct (IH Hhead) as (l1 & l2 & -> & Hx & Hl1).
    exists (a :: l1), l2. split_and!; [done | done | by constructor].
Qed.

Lemma filter_nil_Forall {A} (P : A → Prop) `{!∀ x, Decision (P x)} (l : list A) :
  filter P l = [] ↔ Forall (λ y, ¬ P y) l.
Proof.
  induction l as [|a l IH]; [by split|].
  destruct (decide (P a)) as [Ha|Ha].
  - rewrite filter_cons_True by done. split; [done|].
    intros Hall. by apply Forall_cons in Hall as [Hn _].
  - rewrite filter_cons_False, IH, Forall_cons by done. tauto.
Qed.

(** X8: [get_wikipedia_data] of [wikipedia_pipeline.py] returns the rows
    of the first table of the document, in document order, that carries
    one of the three classes, and [None] exactly when no table does;
    [extract_wikipedia_data] returns [None] for the same documents. *)
Theorem pipeline_locator (soup : node) :
  match Pipeline.get_wikipedia_data_soup soup with
  | Some rows =>
      ∃ before table after,
        descendants soup = before ++ table :: after ∧
        is_stadium_table table ∧
        Forall (λ d, ¬ is_stadium_table d) before ∧
        rows = find_all TR table
  | None => Forall (λ d, ¬ is_stadium_table d) (descendants soup)
  end ∧
  (Pipeline.extract_wikipedia_data_soup soup = Ok None ↔
   Pipeline.get_wikipedia_data_soup soup = None).
Proof.
  unfold Pipeline.get_wikipedia_data_soup, Pipeline.extract_wikipedia_data_soup,
    find_all_class.
  destruct (filter _ (descendants soup)) as [|table ts] eqn:E.
  - split; [|done]. apply (filter_nil_Forall _) in E. exact E.
  - split.
    + destruct (head_filter_Some
                  (λ d : node, tag_named TABLE d && class_among Pipeline.TABLE_CLASSES d)
                  (descendants soup) table)
        as (before & after & Hsplit & Htable & Hbefore).
      { by rewrite E. }
      by exists before, table, after.
    + destruct (for_each _ _ _); simpl; split; done.
Qed.

Lemma class_among_app (l1 l2 : list str) (d : node) :
  class_among (l1 ++ l2) d = class_among l1 d || class_among l2 d.
Proof.
  destruct d as [|name attrs contents]; [done|]. simpl.
  destruct (attrs !! CLASS) as [[v|vs]|]; [| |done].
  - apply eq_true_iff_eq. rewrite orb_true_iff, !bool_decide_eq_true, elem_of_app. done.
  - induction vs as [|v vs IH]; [done|]. simpl. rewrite IH.
    assert (bool_decide (v ∈ l1 ++ l2) = bool_decide (v ∈ l1) || bool_decide (v ∈ l2)) as ->.
    { apply eq_true_iff_eq.
      rewrite orb_true_iff, !bool_decide_eq_true, elem_of_app. done. }
    destruct (bool_decide (v ∈ l1)), (bool_decide (v ∈ l2)),
      (existsb _ vs), (existsb _ vs); done.
Qed.

(** X9: the locator of [findtable.py] finds the table that
    [wikipedia_pipeline.py] finds wherever the latter finds one, and it
    finds none exactly when no table of the document carries one of the
    classes of its two lists. *)
Theorem findtable_locator_extends (soup : node) :
  (∀ rows, Pipeline.get_wikipedia_data_soup soup = Some rows →
     ∃ table, FindTable.locate_table soup = Some table ∧ find_all TR table = rows) ∧
  (FindTable.locate_table soup = None ↔
   Forall (λ d, ¬ (tag_named TABLE d
                   && class_among (FindTable.TABLE_CLASSES ++ FindTable.ALTERNATIVE_CLASSES) d))
     (descendants soup)).
Proof.
  split.
  - intros rows. rewrite findtable_locate_table.
    unfold Pipeline.get_wikipedia_data_soup.
    change Pipeline.TABLE_CLASSES with FindTable.TABLE_CLASSES.
    destruct (find_all_class TABLE FindTable.TABLE_CLASSES soup) as [|table ts]; [done|].
    intros [= <-]. by exists table.
  - rewrite findtable_locate_table. unfold find_all_class.
    assert (Forall (λ d, ¬ (tag_named TABLE d
                      && class_among (FindTable.TABLE_CLASSES ++ FindTable.ALTERNATIVE_CLASSES) d))
              (descendants soup)
            ↔ Forall (λ d : node, ¬ (tag_named TABLE d && class_among FindTable.TABLE_CLASSES d))
                (descendants soup)
              ∧ Forall (λ d : node,
                          ¬ (tag_named TABLE d && class_among FindTable.ALTERNATIVE_CLASSES d))
                  (descendants soup))
      as ->.
    { rewrite <- Forall_and. apply Forall_iff. intros d.
      rewrite class_among_app.
      destruct (tag_named TABLE d), (class_among FindTable.TABLE_CLASSES d),
        (class_among FindTable.ALTERNATIVE_CLASSES d); simpl; tauto. }
    rewrite <- !(filter_nil_Forall _).
    destruct (filter _ (descendants soup)) as [|t1 ts1].
    + destruct (filter _ (descendants soup)) as [|t2 ts2]; simpl.
      * by split.
      * split; [done|]. by intros [_ Hnil].
    + split; [done|]. by intros [Hnil _].
Qed.

(** A loop over indices returns when its body does at each of them. *)
Lemma for_each_seq_total
    (body : nat → list (gmap string value) → result (list (gmap string value))) n a data :
  (∀ i d, (a ≤ i < a + n)%nat → is_Ok (body i d)) →
  is_Ok (for_each (seq a n) body data).
Proof.
  revert a data. induction n as [|n IH]; intros a data Hbody; simpl; [by eexists|].
  destruct (Hbody a data) as [d' ->]; [lia|]. simpl.
  apply IH. intros i d Hi. apply Hbody. lia.
Qed.

(** A loop that returned has a body that returned at every element. *)
Lemma for_each_Ok_each {A S} (body : A → S → result S) xs s s' x :
  for_each xs body s = Ok s' → x ∈ xs → ∃ d d', body x d = Ok d'.
Proof.
  revert s. induction xs as [|a xs IH]; intros s H Hin; [by apply elem_of_nil in Hin|].
  simpl in H. destruct (body a s) as [s1|] eqn:E; [|done]. simpl in H.
  apply elem_of_cons in Hin as [->|Hin]; [by exists s, s1 | by eapply IH].
Qed.

Lemma elem_of_data_rows table row :
  row ∈ data_rows table ↔
  ∃ i, (1 ≤ i)%nat ∧ find_all TR table !! i = Some row.
Proof.
  unfold data_rows. rewrite list_elem_of_lookup. setoid_rewrite lookup_drop. split.
  - intros [k Hk]. exists (1 + k)%nat. split; [lia | done].
  - intros (i & Hi & Hrow). exists (i - 1)%nat. by replace (1 + (i - 1))%nat with i by lia.
Qed.

(** X10: for a table whose sixth cells hold no image, the extraction
    returns exactly when no data row has three, four or five cells. *)
Theorem extraction_returns_iff (soup table : node) :
  head (find_all_class TABLE Pipeline.TABLE_CLASSES soup) = Some table →
  (∀ row td, row ∈ data_rows table →
     find_all TD row !! 5%nat = Some td → find IMG td = None) →
  (∃ data, Pipeline.extract_wikipedia_data_soup soup = Ok (Some data)) ↔
  (∀ row, row ∈ data_rows table → ¬ (3 ≤ length (find_all TD row) ≤ 5)%nat).
Proof.
  intros Htable Himg. unfold Pipeline.extract_wikipedia_data_soup.
  destruct (find_all_class TABLE Pipeline.TABLE_CLASSES soup) as [|t ts]; [done|].
  injection Htable as ->. set (rows := find_all TR table). split.
  - intros [data Hdata] row Hrow Hlen.
    destruct (for_each _ _ _) as [data'|] eqn:E; [|done].
    apply elem_of_data_rows in Hrow as (i & Hi & Hrow).
    destruct (for_each_Ok_each _ _ _ _ i E) as (d & d' & Hbody).
    { unfold range. apply elem_of_seq. apply lookup_lt_Some in Hrow. fold rows in Hrow. lia. }
    by rewrite (extract_row_short rows i row d Hrow Hlen) in Hbody.
  - intros Hrows.
    destruct (for_each_seq_total (Pipeline.extract_row rows) (length rows - 1) 1 [])
      as [data Hdata]; [|unfold range; rewrite Hdata; by eexists].
    intros i d Hi.
    destruct (lookup_lt_is_Some_2 rows i) as [row Hrow]; [lia|].
    assert (row ∈ data_rows table) as Hin.
    { apply elem_of_data_rows. exists i. split; [lia | done]. }
    unfold Pipeline.extract_row. apply getitem_Some in Hrow as ->. simpl.
    case_bool_decide as Hlen; [|by eexists].
    assert (6 ≤ length (find_all TD row))%nat as H6.
    { specialize (Hrows row Hin). lia. }
    destruct (clean_cell_Ok (find_all TD row) 0) as [s0 ->]; [lia|].
    destruct (clean_cell_Ok (find_all TD row) 1) as [s1 ->]; [lia|].
    destruct (clean_cell_or_empty_Ok (find_all TD row) 2) as [s2 ->].
    destruct (clean_cell_or_empty_Ok (find_all TD row) 3) as [s3 ->].
    destruct (clean_cell_or_empty_Ok (find_all TD row) 4) as [s4 ->].
    destruct (clean_cell_or_empty_Ok (find_all TD row) 6) as [s6 Hs6].
    simpl. unfold Pipeline.image_url.
    destruct (lookup_lt_is_Some_2 (find_all TD row) 5) as [td Htd]; [lia|].
    unfold getitem at 1. rewrite Htd. simpl. rewrite (Himg row td Hin Htd).
    simpl. rewrite Hs6. simpl. by eexists.
Qed.

End Tables.

(* ===================================================================== *)
(** * Further properties: enrichment and the flow *)
(* ===================================================================== *)

Section Effects.

Context {coord : Type} `{!EqDecision coord}.
Variable repr_coord : coord → str.
Variable geocode : list str → str → option coord.
Variable int_of_str : str → option Z.
Variable BeautifulSoup : str → node.

Implicit Types (df : Pipeline.frame coord) (w : Pipeline.world coord).
Implicit Types (x y : gmap string (Pipeline.cell coord)).
Implicit Types (xs : list (gmap string (Pipeline.cell coord))).

Lemma queries_only_ret {A} (a : A) : queries_only (Pipeline.io_ret (coord := coord) a).
Proof. intros w r w' [= <- <-]. done. Qed.

Lemma queries_only_lift {A} (r : result A) : queries_only (Pipeline.io_lift (coord := coord) r).
Proof. intros w r' w' [= <- <-]. done. Qed.

Lemma queries_only_bind {A B} (m : Pipeline.io coord A) (k : A → Pipeline.io coord B) :
  queries_only m → (∀ a, queries_only (k a)) → queries_only (Pipeline.io_bind m k).
Proof.
  intros Hm Hk w r w'. unfold Pipeline.io_bind.
  destruct (m w) as [[a|e] w1] eqn:E.
  - intros Hka. destruct (Hm _ _ _ E) as (H1 & H2 & H3).
    destruct (Hk a _ _ _ Hka) as (H4 & H5 & H6).
    split_and!; [congruence | congruence | by etrans].
  - intros [= <- <-]. by apply (Hm _ _ _ E).
Qed.

Lemma queries_only_get_lat_long (country city : Pipeline.cell coord) :
  queries_only (Pipeline.get_lat_long repr_coord geocode country city).
Proof. intros w r w' [= <- <-]. simpl. split_and!; [done | done | by apply prefix_app_r]. Qed.

Lemma queries_only_locate df x : queries_only (Pipeline.locate repr_coord geocode df x).
Proof.
  unfold Pipeline.locate.
  repeat (apply queries_only_bind; [|intros ?]);
    auto using queries_only_lift, queries_only_ret, queries_only_get_lat_long.
Qed.

Lemma queries_only_io_map {A B} (f : A → Pipeline.io coord B) (l : list A) :
  (∀ a, queries_only (f a)) → queries_only (Pipeline.io_map f l).
Proof.
  intros Hf. induction l as [|a l IH]; simpl; [apply queries_only_ret|].
  repeat (apply queries_only_bind; [|intros ?]); auto using queries_only_ret.
Qed.

Lemma queries_only_apply_locate df xs :
  queries_only (Pipeline.apply_locate repr_coord geocode df xs).
Proof.
  unfold Pipeline.apply_locate. case_bool_decide as Hempty.
  - intros w r w' Hrun.
    destruct (Pipeline.locate repr_coord geocode df ∅ w) as [[a|e] w1] eqn:E;
      injection Hrun as <- <-; by apply (queries_only_locate _ _ _ _ _ E).
  - apply queries_only_io_map, queries_only_locate.
Qed.

Lemma queries_only_transform df :
  queries_only (Pipeline.transform_wikipedia_data repr_coord geocode int_of_str df).
Proof.
  unfold Pipeline.transform_wikipedia_data, Pipeline.requery_duplicates.
  repeat (apply queries_only_bind; [|intros ?]);
    auto using queries_only_lift, queries_only_ret, queries_only_apply_locate.
Qed.

(** X11: whatever the document, the flow requests no page, only adds to
    the queries of the geocoder, and leaves every file as it is but the
    output file, which it writes only when it ends without exception. *)
Theorem flow_effects (url output_file : str) (w : Pipeline.world coord) :
  ∃ r w',
    Pipeline.wikipedia_data_pipeline repr_coord geocode int_of_str BeautifulSoup
      url output_file w = (r, w') ∧
    Pipeline.requested w' = Pipeline.requested w ∧
    Pipeline.queries w `prefix_of` Pipeline.queries w' ∧
    (Pipeline.files w' = Pipeline.files w ∨
     r = Ok () ∧ ∃ df, Pipeline.files w' = <[output_file := df]> (Pipeline.files w)).
Proof.
  unfold Pipeline.wikipedia_data_pipeline.
  unfold Pipeline.io_bind at 1, Pipeline.io_lift.
  destruct (Pipeline.extract_wikipedia_data BeautifulSoup url) as [[data|]|e].
  - unfold Pipeline.io_bind.
    destruct (Pipeline.transform_wikipedia_data _ _ _ data w) as [[df|e] w1] eqn:E;
      destruct (queries_only_transform _ _ _ _ E) as (H1 & H2 & H3).
    + eexists _, _. split; [done|]. simpl.
      split_and!; [done | done |]. right. split; [done|]. exists df. by rewrite H1.
    + eexists _, _. split; [done|]. split_and!; [done | done | by left].
  - eexists _, _. split; [done|]. split_and!; [done | done | by left].
  - eexists _, _. split; [done|]. split_and!; [done | done | by left].
Qed.

(** X12: on a table without data rows the extraction returns an empty
    frame, on which [transform_wikipedia_data] raises: the flow ends with
    an exception, without a query and without a file. *)
Theorem flow_table_without_data (url output_file : str) (w : Pipeline.world coord)
    (table : node) :
  head (find_all_class TABLE Pipeline.TABLE_CLASSES (BeautifulSoup url)) = Some table →
  (length (find_all TR table) ≤ 1)%nat →
  Pipeline.extract_wikipedia_data (coord := coord) BeautifulSoup url
  = Ok (Some (Pipeline.DataFrame [])) ∧
  ∃ e, Pipeline.wikipedia_data_pipeline repr_coord geocode int_of_str BeautifulSoup
         url output_file w = (Raise e, w).
Proof.
  intros Htable Hrows.
  assert (Pipeline.extract_wikipedia_data_soup (BeautifulSoup url) = Ok (Some [])) as Hdata.
  { unfold Pipeline.extract_wikipedia_data_soup.
    destruct (find_all_class _ _ _) as [|t ts]; [done|]. injection Htable as ->.
    unfold range. by replace (length (find_all TR table) - 1)%nat with 0%nat by lia. }
  unfold Pipeline.wikipedia_data_pipeline, Pipeline.extract_wikipedia_data.
  rewrite Hdata. split; [done|]. by exists ValueError.
Qed.

End Effects.

Section Enrichment.

Context {coord : Type} `{!EqDecision coord}.
Variable repr_coord : coord → str.
Variable geocode : list str → str → option coord.
Variable int_of_str : str → option Z.

Implicit Types (df : Pipeline.frame coord) (w : Pipeline.world coord).
Implicit Types (x y : gmap string (Pipeline.cell coord)).
Implicit Types (xs : list (gmap string (Pipeline.cell coord))).
Implicit Types (ls : list (Pipeline.cell coord)).

Lemma locate_Ok_inv df x w l w' :
  Pipeline.locate repr_coord geocode df x w = (Ok l, w') →
  ∃ a, l = Pipeline.cell_of_location a.
Proof.
  unfold Pipeline.locate, Pipeline.io_bind, Pipeline.io_lift, Pipeline.io_ret.
  destruct (Pipeline.row_get df x "country"); [|done].
  destruct (Pipeline.row_get df x "city"); [|done].
  simpl. intros [= <- _]. by eexists.
Qed.

Lemma io_map_locate_inv df xs w ls w' :
  Pipeline.io_map (Pipeline.locate repr_coord geocode df) xs w = (Ok ls, w') →
  Forall2 (λ _ l, ∃ a, l = Pipeline.cell_of_location a) xs ls.
Proof.
  revert w ls w'. induction xs as [|x xs IH]; intros w ls w'; simpl.
  - intros [= <- _]. constructor.
  - unfold Pipeline.io_bind at 1.
    destruct (Pipeline.locate repr_coord geocode df x w) as [[l|e] w1] eqn:E; [|done].
    unfold Pipeline.io_bind at 1.
    destruct (Pipeline.io_map _ xs w1) as [[ls1|e] w2] eqn:E1; [|done].
    intros [= <- _]. constructor; [by eapply locate_Ok_inv | by eapply IH].
Qed.

(** What [apply] returns has one location per row. *)
Lemma apply_locate_inv df xs w ls w' :
  Pipeline.apply_locate repr_coord geocode df xs w = (Ok ls, w') →
  Forall2 (λ _ l, ∃ a, l = Pipeline.cell_of_location a) xs ls.
Proof.
  unfold Pipeline.apply_locate. case_bool_decide as Hempty; [|apply io_map_locate_inv].
  destruct (Pipeline.locate repr_coord geocode df ∅ w) as [[l|e] w1] eqn:E; [|done].
  intros [= <- _]. destruct Hempty as [->|Hcolumns]; [constructor|].
  exfalso. revert E.
  unfold Pipeline.locate, Pipeline.io_bind, Pipeline.io_lift, Pipeline.row_get.
  rewrite Hcolumns. rewrite bool_decide_eq_false_2 by set_solver. done.
Qed.

Lemma lookup_set_column df col (vs : list (Pipeline.cell coord)) i x' :
  Pipeline.rows (Pipeline.set_column df col vs) !! i = Some x' ↔
  ∃ x v, Pipeline.rows df !! i = Some x ∧ vs !! i = Some v ∧ x' = <[col := v]> x.
Proof.
  simpl. rewrite lookup_zip_with_Some. split.
  - intros (x & v & -> & Hx & Hv). by exists x, v.
  - intros (x & v & Hx & Hv & ->). by exists x, v.
Qed.

Lemma length_set_column df col (vs : list (Pipeline.cell coord)) :
  length (Pipeline.rows (Pipeline.set_column df col vs))
  = (length (Pipeline.rows df) `min` length vs)%nat.
Proof. simpl. apply length_zip_with. Qed.

(** The pass over the duplicates changes nothing but locations. *)
Lemma requery_duplicates_rows df w df' w' :
  Pipeline.requery_duplicates repr_coord geocode df w = (Ok df', w') →
  Pipeline.columns df' = Pipeline.columns df ∧
  length (Pipeline.rows df') = length (Pipeline.rows df) ∧
  ∀ i x, Pipeline.rows df !! i = Some x →
    Pipeline.rows df' !! i = Some x ∨
    ∃ c, Pipeline.rows df' !! i = Some (<["location" := Pipeline.Tuple c]> x).
Proof.
  unfold Pipeline.requery_duplicates, Pipeline.duplicated.
  unfold Pipeline.io_bind at 1, Pipeline.io_lift.
  destruct (Pipeline.get_column df "location") as [values|]; [|done]. simpl.
  set (sel := Pipeline.select df _).
  unfold Pipeline.io_bind, Pipeline.io_ret.
  destruct (Pipeline.apply_locate repr_coord geocode df sel.*2 w) as [[ls|e] w1] eqn:E; [|done].
  intros [= <- _]. apply apply_locate_inv in E.
  split; [done|]. cbn [Pipeline.rows Pipeline.update]. split; [by rewrite length_imap|].
  intros i x Hx. rewrite list_lookup_imap, Hx. simpl.
  destruct (list_to_map _ !! i) as [o|] eqn:HM; [|by left].
  apply elem_of_list_to_map_2 in HM.
  apply list_elem_of_lookup in HM as [k Hk].
  apply lookup_zip_with_Some in Hk as (p & l & [= -> ->] & Hp & Hl).
  assert (p.2 = x) as ->.
  { apply list_elem_of_lookup_2 in Hp. destruct p as [j y].
    apply select_spec in Hp as [Hy _]. simpl in *. congruence. }
  destruct (Forall2_lookup_r _ _ _ _ _ E Hl) as (x0 & _ & a & ->).
  rewrite update_row_location. destruct a as [c|]; [right; by exists c | by left].
Qed.

Lemma result_map_Ok_inv {A B} (f : A → result B) (l : list A) (l' : list B) :
  result_map f l = Ok l' → Forall2 (λ a b, f a = Ok b) l l'.
Proof.
  revert l'. induction l as [|a l IH]; intros l'; simpl.
  - intros [= <-]. constructor.
  - destruct (f a) as [b|] eqn:E; [|done]. simpl.
    destruct (result_map f l) as [bs|]; [|done]. simpl.
    intros [= <-]. constructor; [done | by apply IH].
Qed.

Lemma get_column_Ok_inv df col (vs : list (Pipeline.cell coord)) :
  Pipeline.get_column df col = Ok vs →
  col ∈ Pipeline.columns df ∧ vs = at_column col <$> Pipeline.rows df.
Proof.
  unfold Pipeline.get_column. case_bool_decide; [|done]. by intros [= <-].
Qed.

(** X13: when [transform_wikipedia_data] returns, the frame has the
    same rows in the same order and the columns of the input with
    [location]; in every row the cells of the columns that are not
    assigned are those of the input, the image is the image of the input
    or the sentinel, the capacity is the integer that the capacity of
    the input converts to, and the location is a coordinate or [None].
    The files and the requested pages are left as they are. *)
Theorem transform_returns
    (data df' : Pipeline.frame coord) (w w' : Pipeline.world coord) :
  Pipeline.transform_wikipedia_data repr_coord geocode int_of_str data w = (Ok df', w') →
  Pipeline.columns df' = {["location"]} ∪ Pipeline.columns data ∧
  length (Pipeline.rows df') = length (Pipeline.rows data) ∧
  Pipeline.files w' = Pipeline.files w ∧
  Pipeline.requested w' = Pipeline.requested w ∧
  ∀ i x, Pipeline.rows data !! i = Some x →
    ∃ x', Pipeline.rows df' !! i = Some x' ∧
      (∀ col, col ∉ ASSIGNED_COLUMNS → x' !! col = x !! col) ∧
      x' !! "images" = Some (Pipeline.default_image (at_column "images" x)) ∧
      (∃ z, x' !! "capacity" = Some (Pipeline.Val (VInt z)) ∧
            Pipeline.to_int64 int_of_str (at_column "capacity" x)
            = Ok (Pipeline.Val (VInt z))) ∧
      (∃ l, x' !! "location" = Some (Pipeline.cell_of_location l)).
Proof.
  intros Hrun.
  destruct (queries_only_transform repr_coord geocode int_of_str data _ _ _ Hrun)
    as (Hfiles & Hrequested & _).
  revert Hrun. unfold Pipeline.transform_wikipedia_data.
  unfold Pipeline.io_bind at 1.
  destruct (Pipeline.apply_locate _ _ data (Pipeline.rows data) w) as [[ls|e] w1] eqn:E1; [|done].
  apply apply_locate_inv in E1.
  unfold Pipeline.io_bind at 1, Pipeline.io_lift at 1.
  destruct (Pipeline.get_column _ "images") as [images|] eqn:E2; [|done].
  apply get_column_Ok_inv in E2 as [Himages ->].
  unfold Pipeline.io_bind at 1, Pipeline.io_lift at 1.
  destruct (Pipeline.get_column _ "capacity") as [capacity|] eqn:E3; [|done].
  apply get_column_Ok_inv in E3 as [Hcapacity ->].
  unfold Pipeline.io_bind at 1, Pipeline.io_lift at 1.
  destruct (result_map _ _) as [ints|] eqn:E4; [|done].
  apply result_map_Ok_inv in E4.
  set (df1 := Pipeline.set_column data "location" ls) in *.
  set (df2 := Pipeline.set_column df1 "images" _) in *.
  set (df3 := Pipeline.set_column df2 "capacity" ints).
  intros Hrequery. apply requery_duplicates_rows in Hrequery as (Hcolumns & Hlength & Hrows).
  assert (length ls = length (Pipeline.rows data)) as Hls.
  { symmetry. by eapply Forall2_length. }
  assert (length (Pipeline.rows df1) = length (Pipeline.rows data)) as Hdf1.
  { unfold df1. rewrite length_set_column. lia. }
  assert (length (Pipeline.rows df2) = length (Pipeline.rows data)) as Hdf2.
  { unfold df2. rewrite length_set_column, !length_fmap. lia. }
  assert (length ints = length (Pipeline.rows data)) as Hints.
  { rewrite <- Hdf2. apply Forall2_length in E4. by rewrite length_fmap in E4. }
  split_and!; [| |done|done|].
  - rewrite Hcolumns. simpl in *. set_solver.
  - rewrite Hlength. unfold df3. rewrite length_set_column. lia.
  - intros i x Hx.
    destruct (lookup_lt_is_Some_2 ls i) as [l Hl]; [rewrite Hls; by eapply lookup_lt_Some|].
    destruct (Forall2_lookup_r _ _ _ _ _ E1 Hl) as (_ & _ & a & ->).
    set (x1 := <["location" := Pipeline.cell_of_location a]> x).
    assert (Pipeline.rows df1 !! i = Some x1) as Hx1.
    { apply lookup_set_column. by exists x, (Pipeline.cell_of_location a). }
    set (x2 := <["images" := Pipeline.default_image (at_column "images" x1)]> x1).
    assert (Pipeline.rows df2 !! i = Some x2) as Hx2.
    { apply lookup_set_column. eexists x1, _. split_and!; [done | | done].
      by rewrite !list_lookup_fmap, Hx1. }
    destruct (lookup_lt_is_Some_2 ints i) as [n Hn]; [rewrite Hints; by eapply lookup_lt_Some|].
    destruct (Forall2_lookup_r _ _ _ _ _ E4 Hn) as (c & Hc & Hconv).
    rewrite list_lookup_fmap, Hx2 in Hc. injection Hc as <-.
    set (x3 := <["capacity" := n]> x2).
    assert (Pipeline.rows df3 !! i = Some x3) as Hx3.
    { apply lookup_set_column. by exists x2, n. }
    assert (at_column "images" x1 = at_column "images" x) as Hsame_image.
    { unfold at_column, x1. by rewrite lookup_insert_ne. }
    assert (at_column "capacity" x2 = at_column "capacity" x) as Hsame_capacity.
    { unfold at_column, x2, x1. by rewrite !lookup_insert_ne. }
    rewrite Hsame_capacity in Hconv.
    assert (∃ z, n = Pipeline.Val (VInt z)) as [z ->].
    { revert Hconv. unfold Pipeline.to_int64.
      destruct (at_column "capacity" x) as [[z|s]| | |]; try done.
      - case_bool_decide; [|done]. intros [= <-]. by eexists.
      - destruct (int_of_str s); [|done]. case_bool_decide; [|done].
        intros [= <-]. by eexists. }
    assert (∀ x', (x' = x3 ∨ ∃ c, x' = <["location" := Pipeline.Tuple c]> x3) →
      (∀ col, col ∉ ASSIGNED_COLUMNS → x' !! col = x !! col) ∧
      x' !! "images" = Some (Pipeline.default_image (at_column "images" x)) ∧
      (∃ z0, x' !! "capacity" = Some (Pipeline.Val (VInt z0)) ∧
             Pipeline.to_int64 int_of_str (at_column "capacity" x)
             = Ok (Pipeline.Val (VInt z0))) ∧
      (∃ l, x' !! "location" = Some (Pipeline.cell_of_location l))) as Hfields.
    { intros x' Hx'. split_and!.
      - intros col Hcol. unfold ASSIGNED_COLUMNS in Hcol.
        assert (col ≠ "location" ∧ col ≠ "images" ∧ col ≠ "capacity") as (? & ? & ?)
          by set_solver.
        destruct Hx' as [->|[c ->]]; unfold x3, x2, x1;
          by rewrite !lookup_insert_ne.
      - rewrite <- Hsame_image.
        destruct Hx' as [->|[c ->]]; unfold x3, x2;
          rewrite !lookup_insert_ne by done; by rewrite lookup_insert_eq.
      - exists z. split; [|done].
        destruct Hx' as [->|[c ->]]; unfold x3;
          rewrite ?lookup_insert_ne by done; by rewrite lookup_insert_eq.
      - destruct Hx' as [->|[c ->]].
        + exists a. unfold x3, x2, x1.
          rewrite !lookup_insert_ne by done. by rewrite lookup_insert_eq.
        + exists (Some c). by rewrite lookup_insert_eq. }
    destruct (Hrows i x3 Hx3) as [Hrow|[c Hrow]]; eexists; (split; [exact Hrow|]);
      apply Hfields; [by left | right; by exists c].
Qed.

End Enrichment.

(** The same on the two stadiums of Madrid. *)
Lemma transform_returns_witness :
  ∃ df' w',
    Pipeline.transform_wikipedia_data repr_pair counting_geocoder ascii_int
      (Pipeline.DataFrame madrid_batch) empty_world = (Ok df', w') ∧
    length (Pipeline.rows df') = 2%nat ∧ Pipeline.files w' = ∅.
Proof.
  destruct (io_returned
              (Pipeline.transform_wikipedia_data repr_pair counting_geocoder ascii_int
                 (Pipeline.DataFrame madrid_batch) empty_world) (λ _ _, True))
    as (df' & w' & Hrun & _); [by vm_compute|].
  destruct (transform_returns repr_pair counting_geocoder ascii_int _ _ _ _ Hrun)
    as (_ & Hlength & Hfiles & _).
  exists df', w'. split_and!; [done | by rewrite Hlength | by rewrite Hfiles].
Defined.

(* ===================================================================== *)
(** * Further properties: [dags/wikipedia_flow.py] *)
(* ===================================================================== *)

Section StadiumData.

Implicit Types (headers cols : list (list N)) (rows : list node).
Implicit Types (d : gmap (list N) (list N)) (h c : list N) (j : nat).

Lemma foldl_insert_other (l : list (list N * list N)) d h :
  h ∉ l.*1 → foldl (λ d kv, <[kv.1 := kv.2]> d) d l !! h = d !! h.
Proof.
  revert d. induction l as [|[k v] l IH]; intros d Hh; [done|]. simpl in *.
  apply not_elem_of_cons in Hh as [Hne Hh]. rewrite IH by done.
  by rewrite lookup_insert_ne.
Qed.

Lemma foldl_insert_elem (l : list (list N * list N)) d h c :
  NoDup l.*1 → (h, c) ∈ l → foldl (λ d kv, <[kv.1 := kv.2]> d) d l !! h = Some c.
Proof.
  revert d. induction l as [|[k v] l IH]; intros d Hnodup Hin; [by apply elem_of_nil in Hin|].
  simpl in *. apply NoDup_cons in Hnodup as [Hk Hnodup].
  apply elem_of_cons in Hin as [[= -> ->]|Hin].
  - rewrite foldl_insert_other by done. by rewrite lookup_insert_eq.
  - by apply IH.
Qed.

Lemma fst_zip_take headers cols : (zip headers cols).*1 = take (length cols) headers.
Proof.
  revert cols. induction headers as [|h headers IH]; intros [|c cols]; simpl; try done.
  by rewrite IH.
Qed.

(** With headers that do not repeat, the dict holds under each header the
    cell at the position of the header, if the row has one. *)
Lemma dict_zip_lookup headers cols j h :
  NoDup headers → headers !! j = Some h →
  WikipediaFlow.dict_zip headers cols !! h = cols !! j.
Proof.
  intros Hnodup Hj. unfold WikipediaFlow.dict_zip.
  assert (NoDup (zip headers cols).*1) as Hzip.
  { rewrite fst_zip_take. eapply sublist_NoDup; [exact Hnodup | apply sublist_take]. }
  destruct (cols !! j) as [c|] eqn:Hc.
  - apply foldl_insert_elem; [done|].
    apply list_elem_of_lookup. exists j. apply lookup_zip_with_Some. by exists h, c.
  - rewrite foldl_insert_other; [done|].
    rewrite fst_zip_take. intros Hin.
    apply list_elem_of_lookup in Hin as [k Hk].
    apply lookup_take_Some in Hk as [Hk Hlt].
    apply lookup_ge_None in Hc.
    pose proof (NoDup_lookup _ _ _ _ Hnodup Hk Hj). lia.
Qed.

(** The loop of [extract_stadium_data] is the list of the dicts of the
    rows that have cells. *)
Lemma stadium_loop headers rows data :
  for_each rows
    (λ row data,
       match WikipediaFlow.stripped_texts TD row with
       | [] => Ok data
       | _ => Ok (data ++ [WikipediaFlow.dict_zip headers (WikipediaFlow.stripped_texts TD row)])
       end) data
  = Ok (data ++ (WikipediaFlow.dict_zip headers
                   <$> filter (λ cols, cols ≠ []) (WikipediaFlow.stripped_texts TD <$> rows))).
Proof.
  revert data. induction rows as [|row rows IH]; intros data.
  - simpl. by rewrite app_nil_r.
  - cbn [for_each]. rewrite fmap_cons.
    destruct (WikipediaFlow.stripped_texts TD row) as [|c cols] eqn:E;
      cbn [rbind]; rewrite IH.
    + by rewrite filter_cons_False by (intros Hn; by apply Hn).
    + rewrite filter_cons_True by done. rewrite fmap_cons. by rewrite <- app_assoc.
Qed.

Lemma stadium_data_rows soup table header_row :
  WikipediaFlow.find_wikitable soup = Some table →
  find_all TR table !! 1%nat = Some header_row →
  WikipediaFlow.extract_stadium_data soup =
  Ok (WikipediaFlow.dict_zip (WikipediaFlow.stripped_texts (py "th") header_row)
        <$> filter (λ cols, cols ≠ [])
              (WikipediaFlow.stripped_texts TD <$> drop 2 (find_all TR table))).
Proof.
  intros Htable Hheader. unfold WikipediaFlow.extract_stadium_data, getitem.
  rewrite Htable, Hheader. simpl. by rewrite stadium_loop.
Qed.

(** X14: [extract_stadium_data] raises [AttributeError] exactly when the
    document has no table of class [wikitable], [IndexError] exactly when
    that table has fewer than two rows, and otherwise returns, for every
    row after the second that has cells, in order, the dict of the header
    cells of the second row and of the cells of the row. *)
Theorem stadium_data_result (soup : node) :
  match WikipediaFlow.find_wikitable soup with
  | None => WikipediaFlow.extract_stadium_data soup = Raise AttributeError
  | Some table =>
      match find_all TR table !! 1%nat with
      | None =>
          (length (find_all TR table) < 2)%nat ∧
          WikipediaFlow.extract_stadium_data soup = Raise IndexError
      | Some header_row =>
          WikipediaFlow.extract_stadium_data soup =
          Ok (WikipediaFlow.dict_zip (WikipediaFlow.stripped_texts (py "th") header_row)
                <$> filter (λ cols, cols ≠ [])
                      (WikipediaFlow.stripped_texts TD <$> drop 2 (find_all TR table)))
      end
  end.
Proof.
  destruct (WikipediaFlow.find_wikitable soup) as [table|] eqn:Htable;
    [|unfold WikipediaFlow.extract_stadium_data; by rewrite Htable].
  destruct (find_all TR table !! 1%nat) as [header_row|] eqn:E.
  - by apply stadium_data_rows.
  - split; [apply lookup_ge_None in E; lia|].
    unfold WikipediaFlow.extract_stadium_data, getitem. by rewrite Htable, E.
Qed.

(** X15: when the header cells do not repeat, every dict that
    [extract_stadium_data] returns holds, under each header, the stripped
    text of the cell at the position of the header in a row of the table
    that has cells, and nothing under the headers beyond the cells of
    that row. *)
Theorem stadium_data_lookup (soup table header_row : node)
    (data : list (gmap (list N) (list N))) (record : gmap (list N) (list N)) :
  WikipediaFlow.find_wikitable soup = Some table →
  find_all TR table !! 1%nat = Some header_row →
  NoDup (WikipediaFlow.stripped_texts (py "th") header_row) →
  WikipediaFlow.extract_stadium_data soup = Ok data →
  record ∈ data →
  ∃ row, row ∈ drop 2 (find_all TR table) ∧
    find_all TD row ≠ [] ∧
    ∀ j h, WikipediaFlow.stripped_texts (py "th") header_row !! j = Some h →
      record !! h = WikipediaFlow.stripped_texts TD row !! j.
Proof.
  intros Htable Hheader Hnodup Hdata Hin.
  rewrite (stadium_data_rows soup table header_row Htable Hheader) in Hdata.
  injection Hdata as <-.
  apply list_elem_of_fmap in Hin as (cols & -> & Hcols).
  apply list_elem_of_filter in Hcols as [Hne Hcols].
  apply list_elem_of_fmap in Hcols as (row & -> & Hrow).
  exists row. split_and!; [done | |].
  - intros Hnil. apply Hne. unfold WikipediaFlow.stripped_texts. by rewrite Hnil.
  - intros j h Hj. by apply dict_zip_lookup.
Qed.

End StadiumData.

Section FlowRun.

Context {request_error parser_error : Type}.
Variable requests_get : str → request_error + str.
Variable BeautifulSoup : str → parser_error + node.

(** X16: [wikipedia_flow] of [dags/wikipedia_flow.py] ends with the
    exception of the request when the request raises, and with that of
    the parser when the parser raises on the content fetched; on a
    parsed page it raises [AttributeError] when the page has no table
    of class [wikitable] and [IndexError] when that table has fewer
    than two rows, and otherwise prints one dict for every row after
    the second that has cells. *)
Theorem wikipedia_flow_outcome (url : str) :
  WikipediaFlow.wikipedia_flow requests_get BeautifulSoup url =
  match requests_get url with
  | inl e => WikipediaFlow.RequestRaised e
  | inr content =>
      match BeautifulSoup content with
      | inl e => WikipediaFlow.ParserRaised e
      | inr soup =>
          match WikipediaFlow.find_wikitable soup with
          | None => WikipediaFlow.ExtractionRaised AttributeError
          | Some table =>
              match find_all TR table !! 1%nat with
              | None => WikipediaFlow.ExtractionRaised IndexError
              | Some header_row =>
                  WikipediaFlow.Returned
                    (WikipediaFlow.dict_zip
                       (WikipediaFlow.stripped_texts (py "th") header_row)
                       <$> filter (λ cols, cols ≠ [])
                             (WikipediaFlow.stripped_texts TD
                                <$> drop 2 (find_all TR table)))
              end
          end
      end
  end.
Proof.
  unfold WikipediaFlow.wikipedia_flow, WikipediaFlow.get_wikipedia_page.
  destruct (requests_get url) as [e|content]; [done|].
  destruct (BeautifulSoup content) as [e|soup]; [done|].
  destruct (WikipediaFlow.find_wikitable soup) as [table|] eqn:Htable.
  - destruct (find_all TR table !! 1%nat) as [header_row|] eqn:Hheader.
    + by rewrite (stadium_data_rows soup table header_row Htable Hheader).
    + unfold WikipediaFlow.extract_stadium_data, getitem. by rewrite Htable, Hheader.
  - unfold WikipediaFlow.extract_stadium_data. by rewrite Htable.
Qed.

End FlowRun.

(* ===================================================================== *)
(** * Further properties: the image of a row *)
(* ===================================================================== *)

Section Image.

Implicit Types (s sep : list N) (i k : nat).

Lemma split_go_skip sep k s : split_go sep k s = split_go sep 0 (drop k s).
Proof.
  revert k. induction s as [|c s IH]; intros [|k]; try done. simpl. apply IH.
Qed.

(** The pieces of a text from its first separator on. *)
Lemma split_go_first sep s i :
  sep ≠ [] → index_of sep s = Some i →
  split_go sep 0 s = take i s :: split_go sep 0 (drop (i + length sep) s).
Proof.
  intros Hsep. revert i. induction s as [|c s IH]; intros i.
  - simpl. by destruct sep.
  - cbn [index_of split_go]. destruct (startswith sep (c :: s)) eqn:E.
    + intros [= <-]. rewrite split_go_skip. simpl.
      destruct sep as [|a sep]; [done|]. simpl. by rewrite Nat.sub_0_r.
    + destruct (index_of sep s) as [i'|] eqn:Ei; [|done]. intros [= <-].
      rewrite (IH i' eq_refl). done.
Qed.

Lemma split_go_none sep s : index_of sep s = None → split_go sep 0 s = [s].
Proof.
  induction s as [|c s IH]; [done|]. cbn [index_of split_go].
  destruct (startswith sep (c :: s)); [done|].
  destruct (index_of sep s); [done|]. intros _. by rewrite IH.
Qed.

Lemma str_split_Ok s sep : sep ≠ [] → str_split s sep = Ok (split_go sep 0 s).
Proof. by destruct sep. Qed.

(** X17: the image of a row, line 112.  With fewer than six cells it is
    an [IndexError]; without an [img] in the sixth cell, the sentinel;
    for an [img] without [src], an [AttributeError]; for a [src] without
    ['//'], an [IndexError]; and otherwise ['https://'] followed by the
    part of the [src] between its first ['//'] and its next ['//'], or
    its end. *)
Theorem image_url_result (tds : list node) :
  Pipeline.image_url tds =
  match tds !! 5%nat with
  | None => Raise IndexError
  | Some td =>
      match find IMG td with
      | None => Ok NO_IMAGE
      | Some img =>
          match get SRC img with
          | Some (AttrStr src) =>
              match index_of SLASHES src with
              | None => Raise IndexError
              | Some i =>
                  let rest := drop (i + 2) src in
                  Ok (HTTPS ++ take (cut_at SLASHES rest) rest)
              end
          | _ => Raise AttributeError
          end
      end
  end.
Proof.
  unfold Pipeline.image_url, getitem at 1.
  destruct (tds !! 5%nat) as [td|]; [|done]. cbn [rbind].
  destruct (find IMG td) as [img|]; [|done].
  destruct (get SRC img) as [[src|]|]; [|done..].
  rewrite str_split_Ok by done. cbn [rbind]. unfold getitem.
  destruct (index_of SLASHES src) as [i|] eqn:Ei.
  - rewrite (split_go_first SLASHES src i) by done.
    change (length SLASHES) with 2%nat. rewrite lookup_cons.
    rewrite <- head_lookup, head_split_go. done.
  - by rewrite split_go_none.
Qed.

End Image.

(* ===================================================================== *)
(** * The further properties at the example documents *)
(* ===================================================================== *)

Lemma result_returned {A} (r : result A) (P : A → Prop) :
  match r with Ok a => P a | Raise _ => False end → ∃ a, r = Ok a ∧ P a.
Proof. destruct r as [a|e]; [|done]. intros H. by exists a. Qed.

(** The first record of [five_rows] has the eight keys. *)
Lemma record_keys_witness :
  ∃ data values,
    Pipeline.extract_wikipedia_data_soup five_rows = Ok (Some data) ∧
    values ∈ data ∧ dom values = RECORD_KEYS.
Proof.
  destruct (returned_data (Pipeline.extract_wikipedia_data_soup five_rows)
              (λ data, head data ≫= (.!! "rank") = Some (VInt 1)))
    as (data & Hdata & Hhead); [by vm_compute|].
  destruct data as [|values data]; [done|]. simpl in Hhead.
  assert (values ∈ values :: data) as Hin by apply list_elem_of_here.
  exists (values :: data), values. split; [done|]. split; [done|].
  destruct (record_keys five_rows (values :: data) values Hdata Hin) as [Hempty|[Hdom _]];
    [|done].
  subst values. by rewrite lookup_empty in Hhead.
Defined.

(** The capacity [99,354] of the first row of [five_rows] is recorded
    without its comma. *)
Lemma record_fields_clean_witness :
  ∃ data values,
    Pipeline.extract_wikipedia_data_soup five_rows = Ok (Some data) ∧
    values ∈ data ∧ values !! "capacity" = Some (VStr (py "99354")) ∧
    (44%N ∉ py "99354") ∧ (46%N ∉ py "99354").
Proof.
  destruct (returned_data (Pipeline.extract_wikipedia_data_soup five_rows)
              (λ data, head data ≫= (.!! "capacity") = Some (VStr (py "99354"))))
    as (data & Hdata & Hhead); [by vm_compute|].
  destruct data as [|values data]; [done|]. simpl in Hhead.
  assert (values ∈ values :: data) as Hin by apply list_elem_of_here.
  assert ("capacity" ≠ "images") as Hkey by done.
  exists (values :: data), values. split; [done|]. split; [done|]. split; [done|].
  destruct (record_fields_clean five_rows (values :: data) values "capacity" (py "99354")
              Hdata Hin Hkey Hhead) as (_ & _ & Hcapacity).
  by apply Hcapacity.
Defined.

(** The image of the first row of [five_rows], whose sixth cell holds no
    picture, is the placeholder, an [https://] URL. *)
Lemma record_image_https_witness :
  ∃ data values,
    Pipeline.extract_wikipedia_data_soup five_rows = Ok (Some data) ∧
    values ∈ data ∧ values !! "images" = Some (VStr NO_IMAGE) ∧
    startswith HTTPS NO_IMAGE = true.
Proof.
  destruct (returned_data (Pipeline.extract_wikipedia_data_soup five_rows)
              (λ data, head data ≫= (.!! "images") = Some (VStr NO_IMAGE)))
    as (data & Hdata & Hhead); [by vm_compute|].
  destruct data as [|values data]; [done|]. simpl in Hhead.
  assert (values ∈ values :: data) as Hin by apply list_elem_of_here.
  exists (values :: data), values. split; [done|]. split; [done|]. split; [done|].
  exact (record_image_https five_rows (values :: data) values NO_IMAGE
           Hdata Hin Hhead).
Defined.

(** The first record that [findtable.py] builds from [five_rows] has the
    four keys. *)
Lemma findtable_record_witness :
  ∃ data values,
    FindTable.get_wikipedia_data_soup five_rows = Ok (Some data) ∧
    values ∈ data ∧ dom values = FINDTABLE_KEYS.
Proof.
  destruct (returned_data (FindTable.get_wikipedia_data_soup five_rows)
              (λ data, head data ≫= (.!! "rank") = Some (VInt 1)))
    as (data & Hdata & Hhead); [by vm_compute|].
  destruct data as [|values data]; [done|]. simpl in Hhead.
  assert (values ∈ values :: data) as Hin by apply list_elem_of_here.
  exists (values :: data), values. split; [done|]. split; [done|].
  destruct (findtable_record five_rows (values :: data) values Hdata Hin)
    as [Hempty|[Hdom _]]; [|done].
  subst values. by rewrite lookup_empty in Hhead.
Defined.

(** [five_rows] has rows of seven cells and one of two, none of three to
    five: the extraction returns. *)
Lemma extraction_returns_iff_witness :
  head (find_all_class TABLE Pipeline.TABLE_CLASSES five_rows) = Some five_rows_table ∧
  ∃ data, Pipeline.extract_wikipedia_data_soup five_rows = Ok (Some data).
Proof.
  assert (head (find_all_class TABLE Pipeline.TABLE_CLASSES five_rows)
          = Some five_rows_table) as Htable by (by vm_compute).
  split; [done|].
  apply (extraction_returns_iff five_rows five_rows_table Htable).
  - intros row td Hrow Htd. vm_compute in Hrow.
    repeat (apply elem_of_cons in Hrow as [-> | Hrow]);
      try (vm_compute in Htd; injection Htd as <-; reflexivity);
      try (vm_compute in Htd; discriminate Htd).
    by apply elem_of_nil in Hrow.
  - intros row Hrow. vm_compute in Hrow.
    repeat (apply elem_of_cons in Hrow as [-> | Hrow]);
      try (vm_compute; lia).
    by apply elem_of_nil in Hrow.
Defined.

(** A page whose table has the header row only: an empty frame is
    extracted, and the flow raises without a query and without a file. *)
Lemma flow_table_without_data_witness :
  (length (find_all TR header_only_table) ≤ 1)%nat ∧
  Pipeline.extract_wikipedia_data (coord := Z * Z) parse_header_only STADIUMS_URL
  = Ok (Some (Pipeline.DataFrame [])) ∧
  ∃ e, Pipeline.wikipedia_data_pipeline repr_pair counting_geocoder ascii_int
         parse_header_only STADIUMS_URL OUTPUT_FILE empty_world = (Raise e, empty_world).
Proof.
  assert (head (find_all_class TABLE Pipeline.TABLE_CLASSES (parse_header_only STADIUMS_URL))
          = Some header_only_table) as Htable by (by vm_compute).
  assert (length (find_all TR header_only_table) ≤ 1)%nat as Hrows by (vm_compute; lia).
  split; [done|].
  exact (flow_table_without_data repr_pair counting_geocoder ascii_int parse_header_only
           STADIUMS_URL OUTPUT_FILE empty_world header_only_table Htable Hrows).
Defined.

(** On [flow_page] the first record is that of the row of Camp Nou: its
    stadium under the stripped header, its capacity as written. *)
Lemma stadium_data_lookup_witness :
  ∃ data record row,
    WikipediaFlow.extract_stadium_data flow_page = Ok data ∧ record ∈ data ∧
    row ∈ drop 2 (find_all TR flow_table) ∧
    record !! py "Stadium" = WikipediaFlow.stripped_texts TD row !! 0%nat.
Proof.
  destruct (result_returned (WikipediaFlow.extract_stadium_data flow_page)
              (λ data, length data = 2%nat))
    as (data & Hdata & Hlength); [by vm_compute|].
  destruct data as [|record data]; [done|].
  assert (record ∈ record :: data) as Hin by apply list_elem_of_here.
  assert (WikipediaFlow.find_wikitable flow_page = Some flow_table) as Htable
    by (by vm_compute).
  assert (find_all TR flow_table !! 1%nat = Some flow_header) as Hheader
    by (by vm_compute).
  assert (NoDup (WikipediaFlow.stripped_texts (py "th") flow_header)) as Hnodup.
  { apply (bool_decide_unpack _). by vm_compute. }
  destruct (stadium_data_lookup flow_page flow_table flow_header (record :: data) record
              Htable Hheader Hnodup Hdata Hin) as (row & Hrow & _ & Hcells).
  exists (record :: data), record, row. split; [done|]. split; [done|]. split; [done|].
  apply Hcells. by vm_compute.
Defined.
